(** * Recipes API: a shallow embedding of the three service variants

    The repository holds three near-duplicate gin services for "recipe"
    records:

    - the in-memory variant (a package-level slice [recipes]),
    - the MongoDB variant (a package-level [collection]),
    - the session-protected variant (a route group behind [AuthMiddleware]).

    Handlers are embedded as pure functions from a request context and the
    state of the process to a response and the next state.  What the handlers
    obtain from outside the repository (the bound JSON body, the identifier
    generators, the clock, the database driver) is made explicit as data or
    as a small executable model. *)

From Stdlib Require Import ZArith NArith String Ascii List Lia.
From stdpp Require Import base list strings.
Import ListNotations.

Local Open Scope string_scope.
Local Open Scope Z_scope.

(** ** net/http status codes used by the handlers *)

Module Http.
Definition StatusOK : Z := 200.
Definition StatusCreated : Z := 201.
Definition StatusBadRequest : Z := 400.
Definition StatusUnauthorized : Z := 401.
Definition StatusNotFound : Z := 404.
Definition StatusInternalServerError : Z := 500.
End Http.

(** ** The part of gin a handler sees *)

(** [time.Time], as a number of ticks since Go's zero time: the zero value
    of the type is [0]. *)
Definition Time : Type := Z.
Definition zeroTime : Time := 0.

(** A tick is a nanosecond, the resolution of [time.Time]. *)
Definition Millisecond : Z := 1000000.

(** A BSON date counts whole milliseconds: what is left of an instant once
    the driver has written it.  Go's zero time lies a whole number of
    seconds before the Unix epoch, so cutting at the millisecond is the same
    from either origin. *)
Definition truncateToMillisecond (t : Time) : Time :=
  t / Millisecond * Millisecond.

Module Gin.

(** A [*gin.Context], by what a handler reads from it: the [:id] path
    parameter, the [tag] query parameter, and the outcome of
    [c.ShouldBindJSON(&recipe)] on the request body: the struct that was
    filled in, or the error text. *)
Record Context (R : Type) : Type := mkContext {
  Param_id : string;
  Query_tag : string;
  ShouldBindJSON : R + string
}.
Arguments mkContext {R} _ _ _.
Arguments Param_id {R} _.
Arguments Query_tag {R} _.
Arguments ShouldBindJSON {R} _.

(** What [c.JSON(status, obj)] is given as [obj]. *)
Inductive Payload (R : Type) : Type :=
| OneRecipe (r : R)
| Recipes (rs : list R)
| H (key msg : string)
| HCount (key msg : string) (countKey : string) (n : Z).
Arguments OneRecipe {R} _.
Arguments Recipes {R} _.
Arguments H {R} _ _.
Arguments HCount {R} _ _ _ _.

Record Response (R : Type) : Type := JSON {
  status : Z;
  payload : Payload R
}.
Arguments JSON {R} _ _.
Arguments status {R} _.
Arguments payload {R} _.

End Gin.
Import Gin.

(** ** The in-memory variant *)

Module InMemory.

Record Recipe : Type := mkRecipe {
  ID : string;
  Name : string;
  Tags : list string;
  Ingredients : list string;
  Instructions : list string;
  PublishedAt : Time
}.

#[export] Instance Recipe_eq_dec : EqDecision Recipe.
Proof. solve_decision. Defined.

Definition set_ID (id : string) (r : Recipe) : Recipe :=
  mkRecipe id (Name r) (Tags r) (Ingredients r) (Instructions r) (PublishedAt r).
Definition set_PublishedAt (t : Time) (r : Recipe) : Recipe :=
  mkRecipe (ID r) (Name r) (Tags r) (Ingredients r) (Instructions r) t.

(** The process state: the package-level slice, how many identifiers
    [xid.New()] has handed out, and the clock. *)
Record World : Type := mkWorld {
  recipes : list Recipe;
  xidCounter : nat;
  clock : Time
}.

(** [for i, r := range rs { if r.ID == id { ... return } }]: the index at
    which the loop body fires, counting from [i]. *)
Fixpoint rangeFind (id : string) (rs : list Recipe) (i : nat) : option nat :=
  match rs with
  | [] => None
  | r :: rs' => if String.eqb (ID r) id then Some i else rangeFind id rs' (S i)
  end.

(** The inner loop of the search: [for _, t := range r.Tags], appending
    [r] and leaving the loop at the first [t == tag]. *)
Fixpoint rangeTags (tag : string) (r : Recipe) (ts : list string)
    (results : list Recipe) : list Recipe :=
  match ts with
  | [] => results
  | t :: ts' =>
      if String.eqb t tag then results ++ [r]
      else rangeTags tag r ts' results
  end.

(** The outer loop: [for _, r := range recipes]. *)
Fixpoint rangeRecipes (tag : string) (rs : list Recipe)
    (results : list Recipe) : list Recipe :=
  match rs with
  | [] => results
  | r :: rs' => rangeRecipes tag rs' (rangeTags tag r (Tags r) results)
  end.

Section Handlers.

(** [xid_at n] is the string of the [n]-th identifier [xid.New()] hands
    out in this process. *)
Variable xid_at : nat -> string.

Definition xid_New_String (w : World) : string * World :=
  (xid_at (xidCounter w),
   mkWorld (recipes w) (S (xidCounter w)) (clock w)).

(** [time.Now()], read [elapsed] ticks after the state [w] was taken. *)
Definition time_Now (elapsed : N) (w : World) : Time * World :=
  let t := clock w + Z.of_N elapsed in
  (t, mkWorld (recipes w) (xidCounter w) t).

Definition NewRecipeHandler (elapsed : N) (c : Context Recipe) (w : World)
    : Response Recipe * World :=
  match ShouldBindJSON c with
  | inr err => (JSON Http.StatusBadRequest (H "error" err), w)
  | inl recipe =>
      let '(id, w) := xid_New_String w in
      let recipe := set_ID id recipe in
      let '(now, w) := time_Now elapsed w in
      let recipe := set_PublishedAt now recipe in
      let w := mkWorld (recipes w ++ [recipe]) (xidCounter w) (clock w) in
      (JSON Http.StatusOK (OneRecipe recipe), w)
  end.

End Handlers.

Definition ListRecipesHandler (c : Context Recipe) (w : World)
    : Response Recipe * World :=
  (JSON Http.StatusOK (Recipes (recipes w)), w).

(** A run of create requests, one after the other, with the responses in
    the order of the requests. *)
Fixpoint createAll (xid_at : nat -> string)
    (reqs : list (N * Context Recipe)) (w : World)
    : list (Response Recipe) * World :=
  match reqs with
  | [] => ([], w)
  | (elapsed, c) :: reqs' =>
      let '(resp, w1) := NewRecipeHandler xid_at elapsed c w in
      let '(resps, w2) := createAll xid_at reqs' w1 in
      (resp :: resps, w2)
  end.

(** The record a create response carries when it reports success. *)
Definition createdRecord (resp : Response Recipe) : option Recipe :=
  match payload resp with
  | OneRecipe r => if Z.eqb (status resp) Http.StatusOK then Some r else None
  | _ => None
  end.

Definition UpdateRecipeHandler (c : Context Recipe) (w : World)
    : Response Recipe * World :=
  let id := Param_id c in
  match ShouldBindJSON c with
  | inr err => (JSON Http.StatusBadRequest (H "error" err), w)
  | inl recipe =>
      match rangeFind id (recipes w) 0 with
      | Some i =>
          (JSON Http.StatusOK (OneRecipe recipe),
           mkWorld (<[i := recipe]> (recipes w)) (xidCounter w) (clock w))
      | None => (JSON Http.StatusNotFound (H "error" "recipe not found"), w)
      end
  end.

Definition DeleteRecipeHandler (c : Context Recipe) (w : World)
    : Response Recipe * World :=
  let id := Param_id c in
  match rangeFind id (recipes w) 0 with
  | Some i =>
      (JSON Http.StatusOK (H "message" "recipe deleted"),
       mkWorld (take i (recipes w) ++ drop (S i) (recipes w))
               (xidCounter w) (clock w))
  | None => (JSON Http.StatusNotFound (H "error" "recipe not found"), w)
  end.

Definition SearchRecipesHandler (c : Context Recipe) (w : World)
    : Response Recipe * World :=
  let tag := Query_tag c in
  let results := rangeRecipes tag (recipes w) [] in
  (JSON Http.StatusOK (Recipes results), w).

End InMemory.

(** ** The MongoDB variant *)

Module Mongo.

(** [primitive.ObjectID] is twelve bytes; kept here as the 96-bit number
    they spell in big-endian order. *)
Definition ObjectID : Type := N.

Definition fromHexChar (c : ascii) : option N :=
  let n := N_of_ascii c in
  if ((48 <=? n) && (n <=? 57))%N then Some (n - 48)%N
  else if ((97 <=? n) && (n <=? 102))%N then Some (n - 87)%N
  else if ((65 <=? n) && (n <=? 70))%N then Some (n - 55)%N
  else None.

Fixpoint decodeHex (s : string) (acc : N) : option N :=
  match s with
  | EmptyString => Some acc
  | String c s' =>
      match fromHexChar c with
      | Some d => decodeHex s' (acc * 16 + d)%N
      | None => None
      end
  end.

(** [primitive.ObjectIDFromHex]: exactly 24 hexadecimal digits. *)
Definition ObjectIDFromHex (s : string) : ObjectID + string :=
  if Nat.eqb (String.length s) 24 then
    match decodeHex s 0%N with
    | Some n => inl n
    | None => inr "encoding/hex: invalid byte"
    end
  else inr "the provided hex string is not a valid ObjectID".

Definition hexDigit (d : N) : ascii :=
  if (d <? 10)%N then ascii_of_N (48 + d) else ascii_of_N (87 + d).

Fixpoint hexOf (k : nat) (n : N) : string :=
  match k with
  | O => EmptyString
  | S k' => hexOf k' (n / 16)%N ++ String (hexDigit (n mod 16)%N) EmptyString
  end.

(** [ObjectID.Hex], the form in which the [id] field is put on the wire. *)
Definition Hex (id : ObjectID) : string := hexOf 24 id.

Record Recipe : Type := mkRecipe {
  ID : ObjectID;
  Name : string;
  Tags : list string;
  Ingredients : list string;
  Instructions : list string;
  PublishedAt : Time
}.

#[export] Instance Recipe_eq_dec : EqDecision Recipe.
Proof. solve_decision. Defined.

Definition set_ID (id : ObjectID) (r : Recipe) : Recipe :=
  mkRecipe id (Name r) (Tags r) (Ingredients r) (Instructions r) (PublishedAt r).
Definition set_PublishedAt (t : Time) (r : Recipe) : Recipe :=
  mkRecipe (ID r) (Name r) (Tags r) (Ingredients r) (Instructions r) t.

(** *** The driver, as far as the handlers use it

    The collection is the sequence of its documents in natural order.  Every
    driver call is recorded in [calls]; [fault] is the error, if any, that
    the driver reports for reasons outside the data (connection, server). *)

Inductive Filter : Type :=
| FilterAll                      (* bson.M{} *)
| FilterID (id : ObjectID)       (* bson.M{"_id": objID} *)
| FilterTags (tag : string).     (* bson.D{{Key: "tags", Value: tag}} *)

Inductive DriverCall : Type :=
| CallInsertOne (doc : Recipe)
| CallUpdateOne (f : Filter)
| CallDeleteOne (f : Filter)
| CallFind (f : Filter).

Record World : Type := mkWorld {
  collection : list Recipe;
  oidCounter : nat;
  clock : Time;
  calls : list DriverCall
}.

Definition logCall (k : DriverCall) (w : World) : World :=
  mkWorld (collection w) (oidCounter w) (clock w) (calls w ++ [k]).
Definition setCollection (docs : list Recipe) (w : World) : World :=
  mkWorld docs (oidCounter w) (clock w) (calls w).

Definition matches (f : Filter) (doc : Recipe) : bool :=
  match f with
  | FilterAll => true
  | FilterID id => N.eqb (ID doc) id
  | FilterTags tag => existsb (fun t => String.eqb t tag) (Tags doc)
  end.

Fixpoint firstMatch (f : Filter) (docs : list Recipe) (i : nat) : option nat :=
  match docs with
  | [] => None
  | d :: docs' => if matches f d then Some i else firstMatch f docs' (S i)
  end.

(** The document the driver writes for a struct: the fields as they are,
    [publishedAt] as a BSON date. *)
Definition stored (doc : Recipe) : Recipe :=
  set_PublishedAt (truncateToMillisecond (PublishedAt doc)) doc.

(** [collection.InsertOne]: the server refuses a second document with the
    same [_id]. *)
Definition InsertOne (fault : option string) (doc : Recipe) (w : World)
    : (unit + string) * World :=
  let w := logCall (CallInsertOne doc) w in
  match fault with
  | Some e => (inr e, w)
  | None =>
      match firstMatch (FilterID (ID doc)) (collection w) 0 with
      | Some _ => (inr "E11000 duplicate key error", w)
      | None => (inl tt, setCollection (collection w ++ [stored doc]) w)
      end
  end.

(** The update document of the handler: [$set] on [name], [instructions],
    [ingredients] and [tags]. *)
Definition applySet (upd doc : Recipe) : Recipe :=
  mkRecipe (ID doc) (Name upd) (Tags upd) (Ingredients upd)
           (Instructions upd) (PublishedAt doc).

(** [collection.UpdateOne] without upsert; the result is the matched
    count. *)
Definition UpdateOne (fault : option string) (f : Filter) (upd : Recipe)
    (w : World) : (Z + string) * World :=
  let w := logCall (CallUpdateOne f) w in
  match fault with
  | Some e => (inr e, w)
  | None =>
      match firstMatch f (collection w) 0 with
      | Some i =>
          (inl 1, setCollection
                    (alter (applySet upd) i (collection w)) w)
      | None => (inl 0, w)
      end
  end.

(** [collection.DeleteOne]; the result is [DeletedCount]. *)
Definition DeleteOne (fault : option string) (f : Filter) (w : World)
    : (Z + string) * World :=
  let w := logCall (CallDeleteOne f) w in
  match fault with
  | Some e => (inr e, w)
  | None =>
      match firstMatch f (collection w) 0 with
      | Some i =>
          (inl 1, setCollection
                    (take i (collection w) ++ drop (S i) (collection w)) w)
      | None => (inl 0, w)
      end
  end.

(** [collection.Find], with the documents its cursor has to hand over. *)
Definition Find (fault : option string) (f : Filter) (w : World)
    : (list Recipe + string) * World :=
  let w := logCall (CallFind f) w in
  match fault with
  | Some e => (inr e, w)
  | None => (inl (List.filter (matches f) (collection w)), w)
  end.

Section Handlers.

(** [oid_at n] is the [n]-th identifier [primitive.NewObjectID()] hands
    out in this process. *)
Variable oid_at : nat -> ObjectID.

Definition NewObjectID (w : World) : ObjectID * World :=
  (oid_at (oidCounter w),
   mkWorld (collection w) (S (oidCounter w)) (clock w) (calls w)).

Definition time_Now (elapsed : N) (w : World) : Time * World :=
  let t := clock w + Z.of_N elapsed in
  (t, mkWorld (collection w) (oidCounter w) t (calls w)).

Definition NewRecipeHandler (elapsed : N) (fault : option string)
    (c : Context Recipe) (w : World) : Response Recipe * World :=
  match ShouldBindJSON c with
  | inr err => (JSON Http.StatusBadRequest (H "error" err), w)
  | inl recipe =>
      let '(id, w) := NewObjectID w in
      let recipe := set_ID id recipe in
      let '(now, w) := time_Now elapsed w in
      let recipe := set_PublishedAt now recipe in
      let '(res, w) := InsertOne fault recipe w in
      match res with
      | inr err => (JSON Http.StatusInternalServerError (H "error" err), w)
      | inl _ => (JSON Http.StatusCreated (OneRecipe recipe), w)
      end
  end.

End Handlers.

(** [for cur.Next(ctx) { cur.Decode(&recipe); recipes = append(...) }]:
    the loop takes what the cursor hands over until [cur.Next] answers
    false, be it at the end of the documents or, when [broken] is [Some n],
    at an error of the cursor after [n] documents; the handler does not ask
    [cur.Err()], so it cannot tell the two apart.  The documents of the
    collection are recipes, so [cur.Decode], whose error is dropped too,
    fills the struct. *)
Definition drain (broken : option nat) (docs : list Recipe) : list Recipe :=
  match broken with
  | Some n => take n docs
  | None => docs
  end.

(** [fault] is the error, if any, of [collection.Find]; [broken] the
    failing of its cursor. *)
Definition ListRecipesHandler (fault : option string) (broken : option nat)
    (c : Context Recipe) (w : World) : Response Recipe * World :=
  let '(res, w) := Find fault FilterAll w in
  match res with
  | inr err => (JSON Http.StatusInternalServerError (H "error" err), w)
  | inl docs => (JSON Http.StatusOK (Recipes (drain broken docs)), w)
  end.

Definition UpdateRecipeHandler (fault : option string) (c : Context Recipe)
    (w : World) : Response Recipe * World :=
  let id := Param_id c in
  match ObjectIDFromHex id with
  | inr err => (JSON Http.StatusBadRequest (H "error" err), w)
  | inl objID =>
      match ShouldBindJSON c with
      | inr err => (JSON Http.StatusBadRequest (H "error" err), w)
      | inl recipe =>
          let '(res, w) := UpdateOne fault (FilterID objID) recipe w in
          match res with
          | inr err =>
              (JSON Http.StatusInternalServerError (H "error" err), w)
          | inl _ =>
              (JSON Http.StatusOK (H "message" "Recipehas been updated"), w)
          end
      end
  end.

Definition DeleteRecipeHandler (fault : option string) (c : Context Recipe)
    (w : World) : Response Recipe * World :=
  let id := Param_id c in
  match ObjectIDFromHex id with
  | inr err => (JSON Http.StatusBadRequest (H "error" err), w)
  | inl objID =>
      let filter := FilterID objID in
      let '(res, w) := DeleteOne fault filter w in
      match res with
      | inr _ =>
          (JSON Http.StatusInternalServerError
                (H "error" "Failed to delete recipe"), w)
      | inl DeletedCount =>
          if Z.eqb DeletedCount 0 then
            (JSON Http.StatusNotFound (H "error" "Recipe not found"), w)
          else
            (JSON Http.StatusOK
                  (HCount "message" "Recipe successfully deleted"
                          "deletedCount" DeletedCount), w)
      end
  end.

(** [cursorFault] is the error, if any, of [cursor.All]. *)
Definition SearchRecipesHandler (fault cursorFault : option string)
    (c : Context Recipe) (w : World) : Response Recipe * World :=
  let tag := Query_tag c in
  let filter := FilterTags tag in
  let '(res, w) := Find fault filter w in
  match res with
  | inr err => (JSON Http.StatusInternalServerError (H "error" err), w)
  | inl results =>
      match cursorFault with
      | Some err =>
          (JSON Http.StatusInternalServerError (H "error" err), w)
      | None => (JSON Http.StatusOK (Recipes results), w)
      end
  end.

End Mongo.


(** ** The identifier generators

    [xid.New()] and [primitive.NewObjectID()] build their twelve bytes the
    same way: four bytes of Unix seconds, five bytes fixed when the process
    starts (machine and process identifier for xid, random bytes for the
    driver), and the low three bytes of a counter that starts at a random
    value and is incremented for every identifier. *)

Module Generator.

Record Process : Type := mkProcess {
  unique : N;
  seed : N
}.

(** The twelve bytes of the identifier a process draws after [n] earlier
    ones, at [unix] seconds of the clock, as one big-endian number. *)
Definition twelveBytes (p : Process) (unix : Z) (n : nat) : N :=
  (Z.to_N (unix mod 2 ^ 32) * 2 ^ 64
   + (unique p mod 2 ^ 40) * 2 ^ 24
   + (seed p + N.of_nat n + 1) mod 2 ^ 24)%N.

(** xid's alphabet, [0123456789abcdefghijklmnopqrstuv]. *)
Definition base32Digit (d : N) : ascii :=
  if (d <? 10)%N then ascii_of_N (48 + d) else ascii_of_N (87 + d).


Fixpoint encode32 (k : nat) (n : N) : string :=
  match k with
  | O => EmptyString
  | S k' =>
      encode32 k' (n / 32)%N ++ String (base32Digit (n mod 32)%N) EmptyString
  end.


(** [ID.String]: the 96 bits in groups of five from the top, the last group
    filled up with four zero bits; twenty characters. *)
Definition xidString (v : N) : string := encode32 20 (v * 16).

(** [secs n] is the Unix second the clock shows at the draw after [n]
    earlier ones. *)
Definition xid_at (p : Process) (secs : nat -> Z) (n : nat) : string :=
  xidString (twelveBytes p (secs n) n).

Definition oid_at (p : Process) (secs : nat -> Z) (n : nat) : Mongo.ObjectID :=
  twelveBytes p (secs n) n.

End Generator.

(** ** The session-protected variant: the router of main.go *)

Module Main.

Inductive Method : Type := GET | POST | PUT | DELETE.

(** The seven routes main.go registers. *)
Inductive Endpoint : Type :=
| NewRecipe | ListRecipes | UpdateRecipe | DeleteRecipe | GetOneRecipe
| SignIn | SignOut.

(** The routes registered on the [authorized] group. *)
Definition protected (e : Endpoint) : bool :=
  match e with
  | SignIn | SignOut => false
  | _ => true
  end.

(** A request as the router sees it: the verb, the path split at [/], and
    the session cookie if one was sent. *)
Record Request : Type := mkRequest {
  method : Method;
  path : list string;
  cookie : option string
}.

Section Router.

(** The state behind the handlers package (the recipes collection, the
    users collection, the cache): the handlers are not part of the sources
    at hand and may do with it what they like. *)
Variable Store : Type.

(** The [*gin.Context] as it travels down a handler chain: the live session
    tokens of the session store, the session attached to the request, what
    was written as status, whether [c.Abort()] was called, the store, and
    the names of the handlers entered so far. *)
Record Context : Type := mkContext {
  request : Request;
  liveSessions : list string;
  session : option string;
  written : option Z;
  aborted : bool;
  store : Store;
  entered : list string
}.

Definition HandlerFunc : Type := Context -> Context.

(** [handlers.RecipesHandler] and [handlers.AuthHandler], by their methods
    that main.go registers. *)
Record RecipesHandler : Type := mkRecipesHandler {
  NewRecipeHandler : HandlerFunc;
  ListRecipesHandler : HandlerFunc;
  UpdateRecipeHandler : HandlerFunc;
  DeleteRecipeHandler : HandlerFunc;
  GetOneRecipeHandler : HandlerFunc
}.

Record AuthHandler : Type := mkAuthHandler {
  SignInHandler : HandlerFunc;
  SignOutHandler : HandlerFunc
}.

Definition setSession (s : option string) (c : Context) : Context :=
  mkContext (request c) (liveSessions c) s (written c) (aborted c)
            (store c) (entered c).

(** [c.AbortWithStatus(code)]: write the status and stop the chain. *)
Definition AbortWithStatus (code : Z) (c : Context) : Context :=
  mkContext (request c) (liveSessions c) (session c) (Some code) true
            (store c) (entered c).

Definition enter (name : string) (c : Context) : Context :=
  mkContext (request c) (liveSessions c) (session c) (written c) (aborted c)
            (store c) (entered c ++ [name]).

(** [sessions.Sessions("recipes_api", store)]: attach the session the
    cookie names, when the session store still holds it. *)
Definition Sessions : HandlerFunc := fun c =>
  match cookie (request c) with
  | Some tok =>
      if existsb (String.eqb tok) (liveSessions c)
      then setSession (Some tok) c
      else setSession None c
  | None => setSession None c
  end.

(** Modelled from the spec: [authHandler.AuthMiddleware()] of the handlers
    package, which is not among the sources.  The gate rejects with
    Unauthorized (401) and halts further processing if no valid session is
    attached to the request; otherwise it passes control to the next
    handler. *)
Definition AuthMiddleware : HandlerFunc := fun c =>
  match session c with
  | None => AbortWithStatus Http.StatusUnauthorized c
  | Some _ => c
  end.

(** gin's [c.Next()] loop: the handlers of the chain run in order until one
    of them aborts. *)
Fixpoint runChain (hs : list (string * HandlerFunc)) (c : Context) : Context :=
  match hs with
  | [] => c
  | (name, h) :: hs' =>
      let c' := h (enter name c) in
      if aborted c' then c' else runChain hs' c'
  end.

Variable recipesHandler : RecipesHandler.
Variable authHandler : AuthHandler.

(** [router.Use(sessions.Sessions(...))]. *)
Definition routerMiddleware : list (string * HandlerFunc) :=
  [("Sessions", Sessions)].

(** [authorized := router.Group("/"); authorized.Use(AuthMiddleware())]. *)
Definition authorized (name : string) (h : HandlerFunc)
    : list (string * HandlerFunc) :=
  routerMiddleware ++ [("AuthMiddleware", AuthMiddleware)] ++ [(name, h)].

Definition public (name : string) (h : HandlerFunc)
    : list (string * HandlerFunc) :=
  routerMiddleware ++ [(name, h)].

(** The route table of [main]: verb and path pattern to endpoint.  A
    [:id] segment matches any single path segment. *)
Definition endpoint (r : Request) : option Endpoint :=
  match method r, path r with
  | POST, ["recipes"] => Some NewRecipe
  | GET, ["recipes"] => Some ListRecipes
  | PUT, ["recipes"; _] => Some UpdateRecipe
  | DELETE, ["recipes"; _] => Some DeleteRecipe
  | GET, ["recipes"; _] => Some GetOneRecipe
  | POST, ["signin"] => Some SignIn
  | POST, ["signout"] => Some SignOut
  | _, _ => None
  end.

(** The handler chain main.go registers for each endpoint: five on the
    [authorized] group, two on the router itself. *)
Definition chain (e : Endpoint) : list (string * HandlerFunc) :=
  match e with
  | NewRecipe =>
      authorized "NewRecipeHandler" (NewRecipeHandler recipesHandler)
  | ListRecipes =>
      authorized "ListRecipesHandler" (ListRecipesHandler recipesHandler)
  | UpdateRecipe =>
      authorized "UpdateRecipeHandler" (UpdateRecipeHandler recipesHandler)
  | DeleteRecipe =>
      authorized "DeleteRecipeHandler" (DeleteRecipeHandler recipesHandler)
  | GetOneRecipe =>
      authorized "GetOneRecipeHandler" (GetOneRecipeHandler recipesHandler)
  | SignIn => public "SignInHandler" (SignInHandler authHandler)
  | SignOut => public "SignOutHandler" (SignOutHandler authHandler)
  end.

(** The request carries a session the session store still holds. *)
Definition validSession (live : list string) (r : Request) : bool :=
  match cookie r with
  | Some tok => existsb (String.eqb tok) live
  | None => false
  end.

(** Serving one request: an unmatched request gets gin's 404. *)
Definition serve (r : Request) (live : list string) (s : Store) : Context :=
  let c := mkContext r live None None false s [] in
  match endpoint r with
  | Some e => runChain (chain e) c
  | None => AbortWithStatus Http.StatusNotFound c
  end.

End Router.

End Main.


(** ** The routers of the two open variants

    Both [main] functions register the same five routes on a router without
    middleware.  A request is the verb, the path split at [/], and what the
    handler will read from its context; for the MongoDB variant also the
    faults the driver will report while the request is served: the error of
    the collection operation, the error of [cursor.All], and the number of
    documents after which the cursor of a list breaks. *)

Module OpenRoutes.

Inductive Endpoint : Type :=
| NewRecipe | ListRecipes | UpdateRecipe | DeleteRecipe | SearchRecipes.

(** [router.POST("/recipes", ...)] to [router.GET("/recipes/search", ...)];
    the second component is the value of [c.Param("id")]. *)
Definition endpoint (m : Main.Method) (path : list string)
    : option (Endpoint * string) :=
  match m, path with
  | Main.POST, ["recipes"] => Some (NewRecipe, "")
  | Main.GET, ["recipes"] => Some (ListRecipes, "")
  | Main.PUT, ["recipes"; id] => Some (UpdateRecipe, id)
  | Main.DELETE, ["recipes"; id] => Some (DeleteRecipe, id)
  | Main.GET, ["recipes"; "search"] => Some (SearchRecipes, "")
  | _, _ => None
  end.

Record Request (R : Type) : Type := mkRequest {
  method : Main.Method;
  path : list string;
  tag : string;
  body : R + string;
  elapsed : N;
  fault : option string;
  cursorFault : option string;
  cursorBreak : option nat
}.
Arguments mkRequest {R} _ _ _ _ _ _ _ _.
Arguments method {R} _.
Arguments path {R} _.
Arguments tag {R} _.
Arguments body {R} _.
Arguments elapsed {R} _.
Arguments fault {R} _.
Arguments cursorFault {R} _.
Arguments cursorBreak {R} _.

(** The in-memory [main]: [None] is gin's own answer to a request no route
    matches. *)
Definition serveInMemory (xid_at : nat -> string)
    (r : Request InMemory.Recipe) (w : InMemory.World)
    : option (Response InMemory.Recipe) * InMemory.World :=
  match endpoint (method r) (path r) with
  | None => (None, w)
  | Some (e, id) =>
      let c := mkContext id (tag r) (body r) in
      let '(resp, w') :=
        match e with
        | NewRecipe => InMemory.NewRecipeHandler xid_at (elapsed r) c w
        | ListRecipes => InMemory.ListRecipesHandler c w
        | UpdateRecipe => InMemory.UpdateRecipeHandler c w
        | DeleteRecipe => InMemory.DeleteRecipeHandler c w
        | SearchRecipes => InMemory.SearchRecipesHandler c w
        end in
      (Some resp, w')
  end.

(** The MongoDB [main]. *)
Definition serveMongo (oid_at : nat -> Mongo.ObjectID)
    (r : Request Mongo.Recipe) (w : Mongo.World)
    : option (Response Mongo.Recipe) * Mongo.World :=
  match endpoint (method r) (path r) with
  | None => (None, w)
  | Some (e, id) =>
      let c := mkContext id (tag r) (body r) in
      let '(resp, w') :=
        match e with
        | NewRecipe =>
            Mongo.NewRecipeHandler oid_at (elapsed r) (fault r) c w
        | ListRecipes =>
            Mongo.ListRecipesHandler (fault r) (cursorBreak r) c w
        | UpdateRecipe => Mongo.UpdateRecipeHandler (fault r) c w
        | DeleteRecipe => Mongo.DeleteRecipeHandler (fault r) c w
        | SearchRecipes =>
            Mongo.SearchRecipesHandler (fault r) (cursorFault r) c w
        end in
      (Some resp, w')
  end.


Fixpoint runMongo (oid_at : nat -> Mongo.ObjectID)
    (rs : list (Request Mongo.Recipe)) (w : Mongo.World) : Mongo.World :=
  match rs with
  | [] => w
  | r :: rs' => runMongo oid_at rs' (snd (serveMongo oid_at r w))
  end.

End OpenRoutes.

(** ** State predicates of the in-memory variant *)

Module Invariant.



End Invariant.

(** ** Sample data

    The scenario of the documentation: a pasta recipe tagged [italian] and
    [dinner], and a few companions. *)

Module Sample.

Fixpoint strokes (n : nat) : string :=
  match n with
  | O => EmptyString
  | S n' => String "i" (strokes n')
  end.

(** An identifier source that never repeats and never yields the empty
    string. *)
Definition xid_at (n : nat) : string := String "x" (strokes n).

Definition oid_at (n : nat) : Mongo.ObjectID := N.of_nat n.


Definition secs (n : nat) : Z := 1700000000.

Definition pasta : InMemory.Recipe :=
  InMemory.mkRecipe "c0" "Pasta" ["italian"; "dinner"] ["flour"; "eggs"]
                    ["knead"; "boil"] 100.

Definition pizza : InMemory.Recipe :=
  InMemory.mkRecipe "c1" "Pizza" ["italian"; "italian"] ["flour"; "tomato"]
                    ["bake"] 200.

Definition cake : InMemory.Recipe :=
  InMemory.mkRecipe "c1" "Cake" ["dessert"] ["sugar"] ["bake"] 300.

(** What [{"name": "Lasagne", "tags": ["italian"]}] binds to: the fields the
    body leaves out keep their zero values. *)
Definition lasagneBody : InMemory.Recipe :=
  InMemory.mkRecipe "" "Lasagne" ["italian"] [] [] zeroTime.

Definition kitchen : InMemory.World :=
  InMemory.mkWorld [pasta; pizza; cake] 2 400.

Definition mpasta : Mongo.Recipe :=
  Mongo.mkRecipe 7%N "Pasta" ["italian"; "dinner"] ["flour"; "eggs"]
                 ["knead"; "boil"] 100.

Definition mcake : Mongo.Recipe :=
  Mongo.mkRecipe 8%N "Cake" ["dessert"] ["sugar"] ["bake"] 300.

Definition mlasagneBody : Mongo.Recipe :=
  Mongo.mkRecipe 0%N "Lasagne" ["italian"] [] [] zeroTime.

Definition pantry : Mongo.World :=
  Mongo.mkWorld [mpasta; mcake] 9 400 [].

(** 24 hexadecimal digits that name no document of [pantry]. *)
Definition strangerHex : string := "5f8f8c44b54764421b7156c3".

(** The hexadecimal form of the identifier of [mpasta]. *)
Definition pastaHex : string := "000000000000000000000007".

End Sample.

(** * Properties *)

Local Open Scope list_scope.

(** ** Loops over the in-memory slice *)

Section InMemoryLoops.
Import InMemory.

(** What the first-match loop finds: either the slice splits at the first
    record with the identifier, or no record carries it. *)
Lemma rangeFind_spec (id : string) (rs : list Recipe) (i : nat) :
  match rangeFind id rs i with
  | Some j =>
      exists pre r post,
        rs = pre ++ r :: post /\ j = (i + length pre)%nat /\ ID r = id /\
        Forall (fun r' => ID r' <> id) pre
  | None => Forall (fun r => ID r <> id) rs
  end.
Proof.
  revert i. induction rs as [|r rs IH]; intros i; simpl.
  - constructor.
  - destruct (String.eqb_spec (ID r) id) as [Heq|Hne].
    + exists [], r, rs. simpl. repeat split; [lia | assumption | constructor].
    + specialize (IH (S i)). destruct (rangeFind id rs (S i)) as [j|].
      * destruct IH as (pre & r' & post & -> & -> & Hid & Hpre).
        exists (r :: pre), r', post. simpl.
        repeat split; [lia | assumption | constructor; assumption].
      * constructor; assumption.
Qed.

Lemma rangeFind_split (id : string) (pre post : list Recipe) (r : Recipe) (i : nat) :
  ID r = id -> Forall (fun r' => ID r' <> id) pre ->
  rangeFind id (pre ++ r :: post) i = Some (i + length pre)%nat.
Proof.
  intros Hid Hpre. revert i.
  induction Hpre as [|r' pre Hr' _ IH]; intros i; simpl.
  - apply String.eqb_eq in Hid. rewrite Hid. f_equal. lia.
  - apply String.eqb_neq in Hr'. rewrite Hr'. rewrite IH. f_equal. lia.
Qed.

Lemma rangeFind_absent (id : string) (rs : list Recipe) (i : nat) :
  Forall (fun r => ID r <> id) rs -> rangeFind id rs i = None.
Proof.
  intros Hall. revert i.
  induction Hall as [|r rs Hr _ IH]; intros i; simpl; [reflexivity|].
  apply String.eqb_neq in Hr. rewrite Hr. apply IH.
Qed.

(** Cutting the element at position [length pre] out of a slice. *)
Lemma cut_at_split {A : Type} (pre post : list A) (x : A) :
  take (length pre) (pre ++ x :: post)
    ++ drop (S (length pre)) (pre ++ x :: post) = pre ++ post.
Proof.
  rewrite take_app_length. f_equal.
  rewrite (cons_middle x pre post), (assoc_L (++)).
  apply drop_app_length'. rewrite length_app. simpl. lia.
Qed.

(** The tag of the inner loop is found exactly when it occurs among the
    tags, and then the record is appended once. *)
Lemma rangeTags_spec (tag : string) (r : Recipe) (ts : list string)
    (results : list Recipe) :
  rangeTags tag r ts results =
    if decide (tag ∈ ts) then results ++ [r] else results.
Proof.
  induction ts as [|t ts IH]; cbn [rangeTags].
  - rewrite decide_False; [reflexivity | apply not_elem_of_nil].
  - destruct (String.eqb_spec t tag) as [->|Hne].
    + rewrite decide_True; [reflexivity | apply elem_of_cons; by left].
    + rewrite IH. destruct (decide (tag ∈ ts)) as [Hin|Hnin].
      * rewrite decide_True; [reflexivity | apply elem_of_cons; by right].
      * rewrite decide_False; [reflexivity|].
        intros Hin. apply elem_of_cons in Hin as [Heq|Hin]; congruence.
Qed.

Lemma rangeRecipes_spec (tag : string) (rs results : list Recipe) :
  rangeRecipes tag rs results =
    results ++ filter (fun r => tag ∈ Tags r) rs.
Proof.
  revert results. induction rs as [|r rs IH]; intros results; cbn [rangeRecipes].
  - by rewrite filter_nil, app_nil_r.
  - rewrite IH, rangeTags_spec, filter_cons.
    destruct (decide (tag ∈ Tags r)); [|reflexivity].
    by rewrite <- (assoc_L (++)).
Qed.

End InMemoryLoops.

(** ** The MongoDB filters *)

Section MongoFilters.
Import Mongo.

Lemma firstMatch_spec (f : Filter) (docs : list Recipe) (i : nat) :
  match firstMatch f docs i with
  | Some j =>
      exists pre d post,
        docs = pre ++ d :: post /\ j = (i + length pre)%nat /\
        matches f d = true /\ Forall (fun d' => matches f d' = false) pre
  | None => Forall (fun d => matches f d = false) docs
  end.
Proof.
  revert i. induction docs as [|d docs IH]; intros i; cbn [firstMatch].
  - constructor.
  - destruct (matches f d) eqn:Hd.
    + exists [], d, docs. cbn. repeat split; [lia | assumption | constructor].
    + specialize (IH (S i)). destruct (firstMatch f docs (S i)) as [j|].
      * destruct IH as (pre & d' & post & -> & -> & Hm & Hpre).
        exists (d :: pre), d', post. cbn.
        repeat split; [lia | assumption | constructor; assumption].
      * constructor; assumption.
Qed.

Lemma firstMatch_absent (f : Filter) (docs : list Recipe) (i : nat) :
  Forall (fun d => matches f d = false) docs -> firstMatch f docs i = None.
Proof.
  intros Hall. revert i.
  induction Hall as [|d docs Hd _ IH]; intros i; cbn [firstMatch];
    [reflexivity|].
  rewrite Hd. apply IH.
Qed.


Lemma matches_tags (tag : string) (d : Recipe) :
  matches (FilterTags tag) d = true <-> tag ∈ Tags d.
Proof.
  cbn [matches]. rewrite existsb_exists. split.
  - intros (t & Hin & Heq). apply String.eqb_eq in Heq. subst t.
    by apply list_elem_of_In.
  - intros Hin. exists tag. split; [by apply list_elem_of_In|].
    apply String.eqb_refl.
Qed.

(** The driver's tag filter selects the documents whose tags hold the
    string, in the order of the collection. *)
Lemma filter_tags (tag : string) (docs : list Recipe) :
  List.filter (matches (FilterTags tag)) docs =
    filter (fun d => tag ∈ Tags d) docs.
Proof.
  induction docs as [|d docs IH]; [reflexivity|].
  cbn [List.filter]. rewrite filter_cons, IH.
  destruct (decide (tag ∈ Tags d)) as [Hin|Hnin].
  - apply matches_tags in Hin. by rewrite Hin.
  - destruct (matches (FilterTags tag) d) eqn:Hm; [|reflexivity].
    apply matches_tags in Hm. contradiction.
Qed.

Lemma matches_id (id : ObjectID) (d : Recipe) :
  matches (FilterID id) d = true <-> ID d = id.
Proof. cbn [matches]. apply N.eqb_eq. Qed.

End MongoFilters.

(** ** Search by tag *)

Lemma filter_none_matching {A : Type} (P : A -> Prop)
    `{forall x, Decision (P x)} (l : list A) :
  Forall (fun x => ~ P x) l -> filter P l = [].
Proof.
  induction 1 as [|x l Hx _ IH]; [reflexivity|].
  rewrite filter_cons, decide_False by assumption. exact IH.
Qed.

Lemma count_occ_filter_le {A : Type} (eq_dec : forall x y : A, {x = y} + {x <> y})
    (P : A -> Prop) `{forall x, Decision (P x)} (l : list A) (a : A) :
  (count_occ eq_dec (filter P l) a <= count_occ eq_dec l a)%nat.
Proof.
  induction l as [|x l IH]; [reflexivity|].
  rewrite filter_cons. destruct (decide (P x)); cbn [count_occ];
    destruct (eq_dec x a); lia.
Qed.

(** The nested loops of the in-memory search compute a filter. *)
Lemma search_run (c : Context InMemory.Recipe) (w : InMemory.World) :
  InMemory.SearchRecipesHandler c w =
    (JSON Http.StatusOK
          (Recipes (filter (fun r => Query_tag c ∈ InMemory.Tags r)
                           (InMemory.recipes w))), w).
Proof. unfold InMemory.SearchRecipesHandler. by rewrite rangeRecipes_spec. Qed.

(** C3.  For every state of the store and every tag, search-by-tag answers
    200 with exactly the stored recipes whose tags hold a string equal to
    the tag, in the order of the store, and leaves the stored recipes as
    they are; when no stored recipe matches, the answer is still 200, with
    the empty sequence.  In-memory variant first, MongoDB variant (driver
    calls succeeding) second. *)
Theorem search_by_tag_exact :
  (forall (c : Context InMemory.Recipe) (w : InMemory.World),
      let matching :=
        filter (fun r => Query_tag c ∈ InMemory.Tags r) (InMemory.recipes w) in
      InMemory.SearchRecipesHandler c w
        = (JSON Http.StatusOK (Recipes matching), w)
      /\ (forall r, r ∈ matching <->
                    r ∈ InMemory.recipes w /\ Query_tag c ∈ InMemory.Tags r)
      /\ (Forall (fun r => Query_tag c ∉ InMemory.Tags r) (InMemory.recipes w) ->
          InMemory.SearchRecipesHandler c w = (JSON Http.StatusOK (Recipes []), w)))
  /\
  (forall (c : Context Mongo.Recipe) (w : Mongo.World),
      let matching :=
        filter (fun d => Query_tag c ∈ Mongo.Tags d) (Mongo.collection w) in
      let w' := Mongo.logCall (Mongo.CallFind (Mongo.FilterTags (Query_tag c))) w in
      Mongo.SearchRecipesHandler None None c w
        = (JSON Http.StatusOK (Recipes matching), w')
      /\ Mongo.collection w' = Mongo.collection w
      /\ (forall d, d ∈ matching <->
                    d ∈ Mongo.collection w /\ Query_tag c ∈ Mongo.Tags d)
      /\ (Forall (fun d => Query_tag c ∉ Mongo.Tags d) (Mongo.collection w) ->
          Mongo.SearchRecipesHandler None None c w
            = (JSON Http.StatusOK (Recipes []), w'))).
Proof.
  split.
  - intros c w matching.
    assert (Hrun : InMemory.SearchRecipesHandler c w
                   = (JSON Http.StatusOK (Recipes matching), w)).
    { apply search_run. }
    split; [exact Hrun|]. split.
    + intros r. subst matching. rewrite list_elem_of_filter. tauto.
    + intros Hnone. rewrite Hrun. subst matching.
      by rewrite filter_none_matching.
  - intros c w matching w'.
    assert (Hrun : Mongo.SearchRecipesHandler None None c w
                   = (JSON Http.StatusOK (Recipes matching), w')).
    { unfold Mongo.SearchRecipesHandler, Mongo.Find. cbn [Mongo.collection Mongo.logCall].
      by rewrite filter_tags. }
    split; [exact Hrun|]. split; [reflexivity|]. split.
    + intros d. subst matching. rewrite list_elem_of_filter. tauto.
    + intros Hnone. rewrite Hrun. subst matching.
      by rewrite filter_none_matching.
Qed.

(** C9.  In-memory search puts a stored recipe into its result at most
    once, however often the tag occurs among the recipe's tags: the result
    is the store with some entries left out, and no record occurs in it
    more often than in the store. *)
Theorem search_includes_each_recipe_once :
  forall (c : Context InMemory.Recipe) (w : InMemory.World),
  exists results,
    InMemory.SearchRecipesHandler c w = (JSON Http.StatusOK (Recipes results), w)
    /\ results `sublist_of` InMemory.recipes w
    /\ (length results <= length (InMemory.recipes w))%nat
    /\ forall r,
        (count_occ InMemory.Recipe_eq_dec results r
         <= count_occ InMemory.Recipe_eq_dec (InMemory.recipes w) r)%nat.
Proof.
  intros c w.
  exists (filter (fun r => Query_tag c ∈ InMemory.Tags r) (InMemory.recipes w)).
  split; [apply search_run|].
  split; [apply sublist_filter|].
  split; [apply length_filter|].
  intros r. apply count_occ_filter_le.
Qed.

Lemma search_by_tag_exact_witness :
  Forall (fun r => "vegan" ∉ InMemory.Tags r) (InMemory.recipes Sample.kitchen)
  /\ InMemory.SearchRecipesHandler (mkContext "" "vegan" (inr "EOF")) Sample.kitchen
     = (JSON Http.StatusOK (Recipes []), Sample.kitchen)
  /\ InMemory.SearchRecipesHandler (mkContext "" "italian" (inr "EOF")) Sample.kitchen
     = (JSON Http.StatusOK (Recipes [Sample.pasta; Sample.pizza]), Sample.kitchen).
Proof.
  assert (Hnone : Forall (fun r => "vegan" ∉ InMemory.Tags r)
                         (InMemory.recipes Sample.kitchen)).
  { repeat constructor; cbn; intros Hin;
      repeat (apply elem_of_cons in Hin as [Hin|Hin]; [discriminate|]);
      by apply elem_of_nil in Hin. }
  split; [exact Hnone|]. split.
  - destruct search_by_tag_exact as [Hmem _].
    destruct (Hmem (mkContext "" "vegan" (inr "EOF")) Sample.kitchen)
      as (_ & _ & Hempty).
    exact (Hempty Hnone).
  - reflexivity.
Defined.

(** The tag occurs twice among the tags of the pizza, which is listed
    once. *)
Example search_repeated_tag :
  InMemory.SearchRecipesHandler (mkContext "" "italian" (inr "EOF"))
    (InMemory.mkWorld [Sample.pizza] 0 0)
  = (JSON Http.StatusOK (Recipes [Sample.pizza]), InMemory.mkWorld [Sample.pizza] 0 0).
Proof. reflexivity. Qed.

(** ** Delete *)

(** Deleting from the in-memory slice when the first record with the
    identifier sits after [pre]. *)
Lemma delete_run (c : Context InMemory.Recipe) (w : InMemory.World)
    (pre post : list InMemory.Recipe) (r : InMemory.Recipe) :
  InMemory.recipes w = pre ++ r :: post ->
  InMemory.ID r = Param_id c ->
  Forall (fun r' => InMemory.ID r' <> Param_id c) pre ->
  InMemory.DeleteRecipeHandler c w =
    (JSON Http.StatusOK (H "message" "recipe deleted"),
     InMemory.mkWorld (pre ++ post) (InMemory.xidCounter w) (InMemory.clock w)).
Proof.
  intros Hsplit Hid Hpre. unfold InMemory.DeleteRecipeHandler.
  rewrite Hsplit, (rangeFind_split _ pre post r 0 Hid Hpre).
  cbn [Nat.add]. by rewrite cut_at_split.
Qed.

Lemma delete_absent_run (c : Context InMemory.Recipe) (w : InMemory.World) :
  Forall (fun r => InMemory.ID r <> Param_id c) (InMemory.recipes w) ->
  InMemory.DeleteRecipeHandler c w =
    (JSON Http.StatusNotFound (H "error" "recipe not found"), w).
Proof.
  intros Hall. unfold InMemory.DeleteRecipeHandler.
  by rewrite (rangeFind_absent _ _ 0 Hall).
Qed.

(** The first record with the identifier, when some record has it. *)
Lemma first_with_id (id : string) (rs : list InMemory.Recipe) :
  Exists (fun r => InMemory.ID r = id) rs ->
  exists pre r post,
    rs = pre ++ r :: post /\ InMemory.ID r = id /\
    Forall (fun r' => InMemory.ID r' <> id) pre.
Proof.
  intros Hex. pose proof (rangeFind_spec id rs 0) as Hs.
  destruct (InMemory.rangeFind id rs 0) as [j|].
  - destruct Hs as (pre & r & post & Hsplit & _ & Hid & Hpre). eauto 6.
  - exfalso. apply Exists_exists in Hex as (r & Hin & Hid).
    rewrite Forall_forall in Hs. exact (Hs r Hin Hid).
Qed.

(** C10.  In-memory delete removes at most one record per call: the first
    record carrying the identifier is cut out, and everything after it,
    records with the same identifier included, stays in place. *)
Theorem delete_removes_first_match_only :
  forall (c : Context InMemory.Recipe) (w : InMemory.World)
         (pre post : list InMemory.Recipe) (r : InMemory.Recipe),
    InMemory.recipes w = pre ++ r :: post ->
    InMemory.ID r = Param_id c ->
    Forall (fun r' => InMemory.ID r' <> Param_id c) pre ->
    let w' := snd (InMemory.DeleteRecipeHandler c w) in
    InMemory.recipes w' = pre ++ post
    /\ S (length (InMemory.recipes w')) = length (InMemory.recipes w)
    /\ forall r', r' ∈ post -> r' ∈ InMemory.recipes w'.
Proof.
  intros c w pre post r Hsplit Hid Hpre w'. subst w'.
  rewrite (delete_run c w pre post r Hsplit Hid Hpre). cbn [snd InMemory.recipes].
  split; [reflexivity|]. split.
  - rewrite Hsplit, !length_app. cbn [length]. lia.
  - intros r' Hin. apply elem_of_app. by right.
Qed.

Lemma delete_removes_first_match_only_witness :
  InMemory.recipes (snd (InMemory.DeleteRecipeHandler
                           (mkContext "c1" "" (inr "EOF")) Sample.kitchen))
    = [Sample.pasta; Sample.cake]
  /\ Sample.cake ∈ InMemory.recipes
       (snd (InMemory.DeleteRecipeHandler
               (mkContext "c1" "" (inr "EOF")) Sample.kitchen)).
Proof.
  destruct (delete_removes_first_match_only
              (mkContext "c1" "" (inr "EOF")) Sample.kitchen
              [Sample.pasta] [Sample.cake] Sample.pizza)
    as (Hstore & _ & Hlater).
  - reflexivity.
  - reflexivity.
  - repeat constructor. cbn. discriminate.
  - split; [exact Hstore|]. apply Hlater. apply elem_of_cons. by left.
Defined.

Lemma firstMatch_split (f : Mongo.Filter) (pre post : list Mongo.Recipe)
    (d : Mongo.Recipe) (i : nat) :
  Mongo.matches f d = true ->
  Forall (fun d' => Mongo.matches f d' = false) pre ->
  Mongo.firstMatch f (pre ++ d :: post) i = Some (i + length pre)%nat.
Proof.
  intros Hd Hpre. revert i.
  induction Hpre as [|d' pre Hd' _ IH]; intros i; cbn [app Mongo.firstMatch].
  - rewrite Hd. f_equal. cbn. lia.
  - rewrite Hd', IH. f_equal. cbn. lia.
Qed.

Lemma no_id_no_match (id : Mongo.ObjectID) (docs : list Mongo.Recipe) :
  Forall (fun d => Mongo.ID d <> id) docs ->
  Forall (fun d => Mongo.matches (Mongo.FilterID id) d = false) docs.
Proof.
  intros Hall. eapply Forall_impl; [exact Hall|].
  intros d Hne. cbn [Mongo.matches]. by apply N.eqb_neq.
Qed.

Lemma first_document_with_id (id : Mongo.ObjectID) (docs : list Mongo.Recipe) :
  Exists (fun d => Mongo.ID d = id) docs ->
  exists pre d post,
    docs = pre ++ d :: post /\ Mongo.ID d = id /\
    Forall (fun d' => Mongo.ID d' <> id) pre.
Proof.
  intros Hex. pose proof (firstMatch_spec (Mongo.FilterID id) docs 0) as Hs.
  destruct (Mongo.firstMatch (Mongo.FilterID id) docs 0) as [j|].
  - destruct Hs as (pre & d & post & Hsplit & _ & Hid & Hpre).
    exists pre, d, post. split; [assumption|]. split; [by apply matches_id|].
    eapply Forall_impl; [exact Hpre|].
    intros d' Hd'. cbn [Mongo.matches] in Hd'. by apply N.eqb_neq.
  - exfalso. apply Exists_exists in Hex as (d & Hin & Hid).
    rewrite Forall_forall in Hs. specialize (Hs d Hin).
    apply matches_id in Hid. congruence.
Qed.

Lemma mongo_delete_run (c : Context Mongo.Recipe) (w : Mongo.World)
    (objID : Mongo.ObjectID) (pre post : list Mongo.Recipe) (d : Mongo.Recipe) :
  Mongo.ObjectIDFromHex (Param_id c) = inl objID ->
  Mongo.collection w = pre ++ d :: post ->
  Mongo.ID d = objID ->
  Forall (fun d' => Mongo.ID d' <> objID) pre ->
  Mongo.DeleteRecipeHandler None c w =
    (JSON Http.StatusOK
          (HCount "message" "Recipe successfully deleted" "deletedCount" 1),
     Mongo.mkWorld (pre ++ post) (Mongo.oidCounter w) (Mongo.clock w)
                   (Mongo.calls w ++ [Mongo.CallDeleteOne (Mongo.FilterID objID)])).
Proof.
  intros Hhex Hsplit Hid Hpre.
  unfold Mongo.DeleteRecipeHandler, Mongo.DeleteOne. rewrite Hhex.
  cbn [Mongo.logCall Mongo.collection].
  rewrite Hsplit, (firstMatch_split _ pre post d 0).
  - cbn [Nat.add Z.eqb]. unfold Mongo.setCollection. cbn.
    by rewrite cut_at_split.
  - by apply matches_id.
  - by apply no_id_no_match.
Qed.

Lemma mongo_delete_absent_run (c : Context Mongo.Recipe) (w : Mongo.World)
    (objID : Mongo.ObjectID) :
  Mongo.ObjectIDFromHex (Param_id c) = inl objID ->
  Forall (fun d => Mongo.ID d <> objID) (Mongo.collection w) ->
  Mongo.DeleteRecipeHandler None c w =
    (JSON Http.StatusNotFound (H "error" "Recipe not found"),
     Mongo.logCall (Mongo.CallDeleteOne (Mongo.FilterID objID)) w).
Proof.
  intros Hhex Hall.
  unfold Mongo.DeleteRecipeHandler, Mongo.DeleteOne. rewrite Hhex.
  cbn [Mongo.logCall Mongo.collection].
  by rewrite (firstMatch_absent _ _ 0 (no_id_no_match _ _ Hall)).
Qed.

(** C4.  Delete answers 404 and removes nothing when no stored recipe has
    the identifier; when some stored recipe has it, delete answers 200 and
    the store loses exactly one record, the first with that identifier.
    In-memory variant first; MongoDB variant second, for a path identifier
    that parses and a driver call that goes through. *)
Theorem delete_not_found_or_removes_one :
  (forall (c : Context InMemory.Recipe) (w : InMemory.World),
      let res := InMemory.DeleteRecipeHandler c w in
      (Forall (fun r => InMemory.ID r <> Param_id c) (InMemory.recipes w) ->
       res = (JSON Http.StatusNotFound (H "error" "recipe not found"), w))
      /\
      (Exists (fun r => InMemory.ID r = Param_id c) (InMemory.recipes w) ->
       status (fst res) = Http.StatusOK
       /\ S (length (InMemory.recipes (snd res))) = length (InMemory.recipes w)
       /\ exists pre r post,
           InMemory.recipes w = pre ++ r :: post
           /\ InMemory.ID r = Param_id c
           /\ InMemory.recipes (snd res) = pre ++ post))
  /\
  (forall (c : Context Mongo.Recipe) (w : Mongo.World) (objID : Mongo.ObjectID),
      Mongo.ObjectIDFromHex (Param_id c) = inl objID ->
      let res := Mongo.DeleteRecipeHandler None c w in
      (Forall (fun d => Mongo.ID d <> objID) (Mongo.collection w) ->
       status (fst res) = Http.StatusNotFound
       /\ Mongo.collection (snd res) = Mongo.collection w)
      /\
      (Exists (fun d => Mongo.ID d = objID) (Mongo.collection w) ->
       status (fst res) = Http.StatusOK
       /\ S (length (Mongo.collection (snd res))) = length (Mongo.collection w)
       /\ exists pre d post,
           Mongo.collection w = pre ++ d :: post
           /\ Mongo.ID d = objID
           /\ Mongo.collection (snd res) = pre ++ post)).
Proof.
  split.
  - intros c w res. subst res. split.
    + apply delete_absent_run.
    + intros Hex.
      destruct (first_with_id _ _ Hex) as (pre & r & post & Hsplit & Hid & Hpre).
      rewrite (delete_run c w pre post r Hsplit Hid Hpre).
      cbn [fst snd status InMemory.recipes].
      split; [reflexivity|]. split.
      * rewrite Hsplit, !length_app. cbn [length]. lia.
      * exists pre, r, post. by rewrite Hsplit.
  - intros c w objID Hhex res. subst res. split.
    + intros Hall. rewrite (mongo_delete_absent_run c w objID Hhex Hall).
      split; reflexivity.
    + intros Hex.
      destruct (first_document_with_id _ _ Hex)
        as (pre & d & post & Hsplit & Hid & Hpre).
      rewrite (mongo_delete_run c w objID pre post d Hhex Hsplit Hid Hpre).
      cbn [fst snd status Mongo.collection].
      split; [reflexivity|]. split.
      * rewrite Hsplit, !length_app. cbn [length]. lia.
      * exists pre, d, post. by rewrite Hsplit.
Qed.

Lemma delete_not_found_or_removes_one_witness :
  (* in memory: "c0" is stored, "zz" is not *)
  (status (fst (InMemory.DeleteRecipeHandler
                  (mkContext "c0" "" (inr "EOF")) Sample.kitchen)) = 200
   /\ S (length (InMemory.recipes
                   (snd (InMemory.DeleteRecipeHandler
                           (mkContext "c0" "" (inr "EOF")) Sample.kitchen)))) = 3%nat)
  /\ InMemory.DeleteRecipeHandler (mkContext "zz" "" (inr "EOF")) Sample.kitchen
     = (JSON 404 (H "error" "recipe not found"), Sample.kitchen)
  (* MongoDB: the pasta is stored, the stranger is not *)
  /\ (status (fst (Mongo.DeleteRecipeHandler None
                     (mkContext Sample.pastaHex "" (inr "EOF")) Sample.pantry)) = 200
      /\ S (length (Mongo.collection
                      (snd (Mongo.DeleteRecipeHandler None
                              (mkContext Sample.pastaHex "" (inr "EOF"))
                              Sample.pantry)))) = 2%nat)
  /\ (status (fst (Mongo.DeleteRecipeHandler None
                     (mkContext Sample.strangerHex "" (inr "EOF")) Sample.pantry)) = 404
      /\ Mongo.collection
           (snd (Mongo.DeleteRecipeHandler None
                   (mkContext Sample.strangerHex "" (inr "EOF")) Sample.pantry))
         = [Sample.mpasta; Sample.mcake]).
Proof.
  destruct delete_not_found_or_removes_one as [Hmem Hdb].
  split; [|split; [|split]].
  - destruct (Hmem (mkContext "c0" "" (inr "EOF")) Sample.kitchen) as [_ Hhit].
    destruct Hhit as (Hst & Hlen & _).
    + apply Exists_cons_hd. reflexivity.
    + split; [exact Hst | exact Hlen].
  - destruct (Hmem (mkContext "zz" "" (inr "EOF")) Sample.kitchen) as [Hmiss _].
    apply Hmiss. repeat constructor; cbn; discriminate.
  - destruct (Hdb (mkContext Sample.pastaHex "" (inr "EOF")) Sample.pantry 7%N)
      as [_ Hhit]; [reflexivity|].
    destruct Hhit as (Hst & Hlen & _).
    + apply Exists_cons_hd. reflexivity.
    + split; [exact Hst | exact Hlen].
  - destruct (Hdb (mkContext Sample.strangerHex "" (inr "EOF")) Sample.pantry
                  29574614723981391742719055555%N) as [Hmiss _].
    + vm_compute. reflexivity.
    + apply Hmiss. repeat constructor; cbn; discriminate.
Defined.

(** ** Create and list *)

Section InMemoryCreate.
Import InMemory.
Variable xid_at : nat -> string.

(** A create whose body binds: the identifier and the time come from the
    server, the other four fields from the body. *)
Lemma create_run (elapsed : N) (id tag : string) (body : Recipe) (w : World) :
  let r := mkRecipe (xid_at (xidCounter w)) (Name body) (Tags body)
                    (Ingredients body) (Instructions body)
                    (clock w + Z.of_N elapsed) in
  NewRecipeHandler xid_at elapsed (mkContext id tag (inl body)) w =
    (JSON Http.StatusOK (OneRecipe r),
     mkWorld (recipes w ++ [r]) (S (xidCounter w)) (clock w + Z.of_N elapsed)).
Proof. reflexivity. Qed.

Lemma create_rejected (elapsed : N) (id tag err : string) (w : World) :
  NewRecipeHandler xid_at elapsed (mkContext id tag (inr err)) w =
    (JSON Http.StatusBadRequest (H "error" err), w).
Proof. reflexivity. Qed.

Lemma createAll_cons (elapsed : N) (c : Context Recipe)
    (reqs : list (N * Context Recipe)) (w : World) :
  createAll xid_at ((elapsed, c) :: reqs) w =
    (fst (NewRecipeHandler xid_at elapsed c w)
       :: fst (createAll xid_at reqs (snd (NewRecipeHandler xid_at elapsed c w))),
     snd (createAll xid_at reqs (snd (NewRecipeHandler xid_at elapsed c w)))).
Proof.
  cbn [createAll].
  destruct (NewRecipeHandler xid_at elapsed c w) as [resp w1]. cbn [fst snd].
  by destruct (createAll xid_at reqs w1) as [resps w2].
Qed.

(** The store after a run of creates is the store before it followed by
    the records that were created, in the order of the requests. *)
Lemma createAll_appends (reqs : list (N * Context Recipe)) (w : World) :
  recipes (snd (createAll xid_at reqs w)) =
    recipes w ++ omap createdRecord (fst (createAll xid_at reqs w)).
Proof.
  revert w. induction reqs as [|[elapsed [id tag body]] reqs IH]; intros w.
  - cbn. by rewrite app_nil_r.
  - rewrite createAll_cons. cbn [fst snd]. destruct body as [body|err].
    + rewrite create_run. cbn [fst snd]. rewrite IH. cbn [recipes].
      rewrite <- (assoc_L (++)). reflexivity.
    + rewrite create_rejected. cbn [fst snd]. rewrite IH. reflexivity.
Qed.


End InMemoryCreate.

(** C8.  In the in-memory variant a successful create appends its record at
    the end of the slice, and list answers with the slice as it stands:
    after any run of creates, list yields the earlier records followed by
    the created ones in the order of their creation. *)
Theorem list_in_insertion_order :
  (forall (xid_at : nat -> string) (elapsed : N) (id tag : string)
          (body : InMemory.Recipe) (w : InMemory.World),
      exists r w',
        InMemory.NewRecipeHandler xid_at elapsed (mkContext id tag (inl body)) w
          = (JSON Http.StatusOK (OneRecipe r), w')
        /\ InMemory.recipes w' = InMemory.recipes w ++ [r])
  /\
  (forall (c : Context InMemory.Recipe) (w : InMemory.World),
      InMemory.ListRecipesHandler c w
        = (JSON Http.StatusOK (Recipes (InMemory.recipes w)), w))
  /\
  (forall (xid_at : nat -> string) (reqs : list (N * Context InMemory.Recipe))
          (c : Context InMemory.Recipe) (w : InMemory.World),
      let run := InMemory.createAll xid_at reqs w in
      InMemory.ListRecipesHandler c (snd run)
        = (JSON Http.StatusOK
                (Recipes (InMemory.recipes w
                            ++ omap InMemory.createdRecord (fst run))),
           snd run)).
Proof.
  split; [|split].
  - intros xid_at elapsed id tag body w. eexists _, _.
    split; [apply create_run | reflexivity].
  - reflexivity.
  - intros xid_at reqs c w run. unfold InMemory.ListRecipesHandler.
    subst run. by rewrite createAll_appends.
Qed.

(** Two creates, one of them refused, then list. *)
Example list_after_creates :
  let run := InMemory.createAll Sample.xid_at
               [(5%N, mkContext "" "" (inl Sample.lasagneBody));
                (1%N, mkContext "" "" (inr "EOF"));
                (2%N, mkContext "" "" (inl Sample.cake))]
               (InMemory.mkWorld [Sample.pasta] 0 400) in
  fst (InMemory.ListRecipesHandler (mkContext "" "" (inr "EOF")) (snd run))
  = JSON 200 (Recipes
      [Sample.pasta;
       InMemory.mkRecipe "x" "Lasagne" ["italian"] [] [] 405;
       InMemory.mkRecipe "xi" "Cake" ["dessert"] ["sugar"] ["bake"] 407]).
Proof. reflexivity. Qed.

Lemma string_length_append (s t : string) :
  String.length (String.append s t) = (String.length s + String.length t)%nat.
Proof. induction s as [|a s IH]; [reflexivity | exact (f_equal S IH)]. Qed.

Lemma hexOf_length (k : nat) (n : N) : String.length (Mongo.hexOf k n) = k.
Proof.
  revert n. induction k as [|k IH]; intros n; cbn [Mongo.hexOf]; [reflexivity|].
  rewrite string_length_append, IH. cbn. lia.
Qed.

Lemma mongo_create_run (oid_at : nat -> Mongo.ObjectID) (elapsed : N)
    (id tag : string) (body : Mongo.Recipe) (w : Mongo.World) :
  Forall (fun d => Mongo.ID d <> oid_at (Mongo.oidCounter w)) (Mongo.collection w) ->
  let r := Mongo.mkRecipe (oid_at (Mongo.oidCounter w)) (Mongo.Name body)
                          (Mongo.Tags body) (Mongo.Ingredients body)
                          (Mongo.Instructions body)
                          (Mongo.clock w + Z.of_N elapsed) in
  Mongo.NewRecipeHandler oid_at elapsed None (mkContext id tag (inl body)) w =
    (JSON Http.StatusCreated (OneRecipe r),
     Mongo.mkWorld (Mongo.collection w ++ [Mongo.stored r])
                   (S (Mongo.oidCounter w))
                   (Mongo.clock w + Z.of_N elapsed)
                   (Mongo.calls w ++ [Mongo.CallInsertOne r])).
Proof.
  intros Hfresh r.
  unfold Mongo.NewRecipeHandler, Mongo.InsertOne.
  cbn [ShouldBindJSON Mongo.NewObjectID Mongo.time_Now Mongo.logCall
       Mongo.collection Mongo.set_ID Mongo.set_PublishedAt Mongo.ID
       Mongo.Name Mongo.Tags Mongo.Ingredients Mongo.Instructions
       Mongo.PublishedAt Mongo.oidCounter Mongo.clock Mongo.calls].
  by rewrite (firstMatch_absent _ _ 0 (no_id_no_match _ _ Hfresh)).
Qed.


(** ** Identifiers on the wire, read back *)

Lemma fromHexChar_hexDigit (d : N) :
  (d < 16)%N -> Mongo.fromHexChar (Mongo.hexDigit d) = Some d.
Proof.
  intros Hd. rewrite <- (N2Nat.id d).
  assert (Hn : (N.to_nat d < 16)%nat) by lia.
  generalize dependent (N.to_nat d). intros n Hn.
  do 16 (destruct n as [|n]; [reflexivity|]). lia.
Qed.

Lemma decodeHex_append (s1 s2 : string) (acc : N) :
  Mongo.decodeHex (String.append s1 s2) acc =
    match Mongo.decodeHex s1 acc with
    | Some a => Mongo.decodeHex s2 a
    | None => None
    end.
Proof.
  revert acc. induction s1 as [|a s1 IH]; intros acc; [reflexivity|].
  change (String.append (String a s1) s2) with (String a (String.append s1 s2)).
  cbn [Mongo.decodeHex]. destruct (Mongo.fromHexChar a); [apply IH | reflexivity].
Qed.

(** Reading back [k] written digits gives the number below [16^k]. *)
Lemma decodeHex_hexOf (k : nat) (n acc : N) :
  Mongo.decodeHex (Mongo.hexOf k n) acc =
    Some (acc * 16 ^ N.of_nat k + n mod 16 ^ N.of_nat k)%N.
Proof.
  revert n acc. induction k as [|k IH]; intros n acc.
  - cbn [Mongo.hexOf Mongo.decodeHex]. f_equal.
    change (N.of_nat 0) with 0%N. rewrite N.pow_0_r, N.mod_1_r. lia.
  - cbn [Mongo.hexOf]. rewrite decodeHex_append, IH.
    cbn [Mongo.decodeHex].
    rewrite fromHexChar_hexDigit by (apply N.mod_lt; lia).
    f_equal. rewrite Nat2N.inj_succ, N.pow_succ_r'.
    rewrite (N.Div0.mod_mul_r n 16 (16 ^ N.of_nat k)). lia.
Qed.

Lemma ObjectIDFromHex_Hex (id : Mongo.ObjectID) :
  (id < 2 ^ 96)%N -> Mongo.ObjectIDFromHex (Mongo.Hex id) = inl id.
Proof.
  intros Hid. unfold Mongo.ObjectIDFromHex, Mongo.Hex.
  rewrite hexOf_length, Nat.eqb_refl, decodeHex_hexOf.
  do 2 f_equal. change (16 ^ N.of_nat 24)%N with (2 ^ 96)%N.
  rewrite N.mod_small by exact Hid. lia.
Qed.

(** ** The identifier generators *)

Section Generators.
Import Generator.













End Generators.





Lemma sample_oid_inj (m n : nat) : Sample.oid_at m = Sample.oid_at n -> m = n.
Proof. apply Nat2N.inj. Qed.



(** ** Update *)

Lemma insert_at_split {A : Type} (pre post : list A) (x y : A) :
  <[length pre := x]> (pre ++ y :: post) = pre ++ x :: post.
Proof.
  induction pre as [|z pre IH]; [reflexivity | exact (f_equal (cons z) IH)].
Qed.

Lemma alter_at_split {A : Type} (f : A -> A) (pre post : list A) (y : A) :
  alter f (length pre) (pre ++ y :: post) = pre ++ f y :: post.
Proof.
  induction pre as [|z pre IH]; [reflexivity | exact (f_equal (cons z) IH)].
Qed.

Lemma update_run (c : Context InMemory.Recipe) (w : InMemory.World)
    (pre post : list InMemory.Recipe) (r body : InMemory.Recipe) :
  InMemory.recipes w = pre ++ r :: post ->
  InMemory.ID r = Param_id c ->
  Forall (fun r' => InMemory.ID r' <> Param_id c) pre ->
  ShouldBindJSON c = inl body ->
  InMemory.UpdateRecipeHandler c w =
    (JSON Http.StatusOK (OneRecipe body),
     InMemory.mkWorld (pre ++ body :: post)
                      (InMemory.xidCounter w) (InMemory.clock w)).
Proof.
  intros Hsplit Hid Hpre Hbind. unfold InMemory.UpdateRecipeHandler.
  rewrite Hbind, Hsplit, (rangeFind_split _ pre post r 0 Hid Hpre).
  cbn [Nat.add]. by rewrite insert_at_split.
Qed.

Lemma update_absent_run (c : Context InMemory.Recipe) (w : InMemory.World)
    (body : InMemory.Recipe) :
  ShouldBindJSON c = inl body ->
  Forall (fun r => InMemory.ID r <> Param_id c) (InMemory.recipes w) ->
  InMemory.UpdateRecipeHandler c w =
    (JSON Http.StatusNotFound (H "error" "recipe not found"), w).
Proof.
  intros Hbind Hall. unfold InMemory.UpdateRecipeHandler.
  by rewrite Hbind, (rangeFind_absent _ _ 0 Hall).
Qed.

Lemma mongo_update_run (c : Context Mongo.Recipe) (w : Mongo.World)
    (objID : Mongo.ObjectID) (pre post : list Mongo.Recipe)
    (d body : Mongo.Recipe) :
  Mongo.ObjectIDFromHex (Param_id c) = inl objID ->
  ShouldBindJSON c = inl body ->
  Mongo.collection w = pre ++ d :: post ->
  Mongo.ID d = objID ->
  Forall (fun d' => Mongo.ID d' <> objID) pre ->
  Mongo.UpdateRecipeHandler None c w =
    (JSON Http.StatusOK (H "message" "Recipehas been updated"),
     Mongo.mkWorld (pre ++ Mongo.applySet body d :: post)
                   (Mongo.oidCounter w) (Mongo.clock w)
                   (Mongo.calls w ++ [Mongo.CallUpdateOne (Mongo.FilterID objID)])).
Proof.
  intros Hhex Hbind Hsplit Hid Hpre.
  unfold Mongo.UpdateRecipeHandler, Mongo.UpdateOne. rewrite Hhex, Hbind.
  cbn [Mongo.logCall Mongo.collection].
  rewrite Hsplit, (firstMatch_split _ pre post d 0).
  - cbn [Nat.add]. unfold Mongo.setCollection. cbn.
    by rewrite alter_at_split.
  - by apply matches_id.
  - by apply no_id_no_match.
Qed.

Lemma mongo_update_absent_run (c : Context Mongo.Recipe) (w : Mongo.World)
    (objID : Mongo.ObjectID) (body : Mongo.Recipe) :
  Mongo.ObjectIDFromHex (Param_id c) = inl objID ->
  ShouldBindJSON c = inl body ->
  Forall (fun d => Mongo.ID d <> objID) (Mongo.collection w) ->
  Mongo.UpdateRecipeHandler None c w =
    (JSON Http.StatusOK (H "message" "Recipehas been updated"),
     Mongo.logCall (Mongo.CallUpdateOne (Mongo.FilterID objID)) w).
Proof.
  intros Hhex Hbind Hall.
  unfold Mongo.UpdateRecipeHandler, Mongo.UpdateOne. rewrite Hhex, Hbind.
  cbn [Mongo.logCall Mongo.collection].
  by rewrite (firstMatch_absent _ _ 0 (no_id_no_match _ _ Hall)).
Qed.

(** C1.  An update whose identifier names no stored recipe never creates a
    record, but only the in-memory variant answers 404: the MongoDB variant
    does not look at the matched count and answers 200 with its success
    message. *)
Theorem update_of_unknown_id :
  (forall (c : Context InMemory.Recipe) (w : InMemory.World)
          (body : InMemory.Recipe),
      ShouldBindJSON c = inl body ->
      Forall (fun r => InMemory.ID r <> Param_id c) (InMemory.recipes w) ->
      InMemory.UpdateRecipeHandler c w
        = (JSON Http.StatusNotFound (H "error" "recipe not found"), w))
  /\
  (forall (c : Context Mongo.Recipe) (w : Mongo.World)
          (objID : Mongo.ObjectID) (body : Mongo.Recipe),
      Mongo.ObjectIDFromHex (Param_id c) = inl objID ->
      ShouldBindJSON c = inl body ->
      Forall (fun d => Mongo.ID d <> objID) (Mongo.collection w) ->
      let res := Mongo.UpdateRecipeHandler None c w in
      fst res = JSON Http.StatusOK (H "message" "Recipehas been updated")
      /\ Mongo.collection (snd res) = Mongo.collection w).
Proof.
  split.
  - intros c w body. apply update_absent_run.
  - intros c w objID body Hhex Hbind Hall res. subst res.
    rewrite (mongo_update_absent_run c w objID body Hhex Hbind Hall).
    split; reflexivity.
Qed.

Lemma update_of_unknown_id_witness :
  InMemory.UpdateRecipeHandler
      (mkContext "zz" "" (inl Sample.lasagneBody)) Sample.kitchen
    = (JSON 404 (H "error" "recipe not found"), Sample.kitchen)
  /\ fst (Mongo.UpdateRecipeHandler None
            (mkContext Sample.strangerHex "" (inl Sample.mlasagneBody))
            Sample.pantry)
     = JSON 200 (H "message" "Recipehas been updated")
  /\ Mongo.collection
       (snd (Mongo.UpdateRecipeHandler None
               (mkContext Sample.strangerHex "" (inl Sample.mlasagneBody))
               Sample.pantry))
     = [Sample.mpasta; Sample.mcake].
Proof.
  destruct update_of_unknown_id as [Hmem Hdb]. split.
  - apply (Hmem (mkContext "zz" "" (inl Sample.lasagneBody)) Sample.kitchen
                Sample.lasagneBody); [reflexivity|].
    repeat constructor; cbn; discriminate.
  - apply (Hdb (mkContext Sample.strangerHex "" (inl Sample.mlasagneBody))
               Sample.pantry 29574614723981391742719055555%N
               Sample.mlasagneBody); [vm_compute; reflexivity | reflexivity |].
    repeat constructor; cbn; discriminate.
Defined.

(** C2.  A successful update in the in-memory variant puts the bound body
    in the place of the stored record, all six fields of it: the stored
    identifier and publishedAt become whatever the body carried.  The
    MongoDB variant sets name, tags, ingredients and instructions and keeps
    the stored identifier and publishedAt. *)
Theorem update_replaces_record :
  (forall (c : Context InMemory.Recipe) (w : InMemory.World)
          (pre post : list InMemory.Recipe) (r body : InMemory.Recipe),
      InMemory.recipes w = pre ++ r :: post ->
      InMemory.ID r = Param_id c ->
      Forall (fun r' => InMemory.ID r' <> Param_id c) pre ->
      ShouldBindJSON c = inl body ->
      InMemory.UpdateRecipeHandler c w
        = (JSON Http.StatusOK (OneRecipe body),
           InMemory.mkWorld (pre ++ body :: post)
                            (InMemory.xidCounter w) (InMemory.clock w)))
  /\
  (forall (c : Context Mongo.Recipe) (w : Mongo.World) (objID : Mongo.ObjectID)
          (pre post : list Mongo.Recipe) (d body : Mongo.Recipe),
      Mongo.ObjectIDFromHex (Param_id c) = inl objID ->
      ShouldBindJSON c = inl body ->
      Mongo.collection w = pre ++ d :: post ->
      Mongo.ID d = objID ->
      Forall (fun d' => Mongo.ID d' <> objID) pre ->
      let d' := Mongo.mkRecipe (Mongo.ID d) (Mongo.Name body) (Mongo.Tags body)
                               (Mongo.Ingredients body) (Mongo.Instructions body)
                               (Mongo.PublishedAt d) in
      let res := Mongo.UpdateRecipeHandler None c w in
      status (fst res) = Http.StatusOK
      /\ Mongo.collection (snd res) = pre ++ d' :: post).
Proof.
  split.
  - intros c w pre post r body. apply update_run.
  - intros c w objID pre post d body Hhex Hbind Hsplit Hid Hpre d' res.
    subst res.
    rewrite (mongo_update_run c w objID pre post d body
               Hhex Hbind Hsplit Hid Hpre).
    split; reflexivity.
Qed.

Lemma update_replaces_record_witness :
  (* in memory: the pasta loses its identifier c0 and its time 100 *)
  InMemory.recipes
      (snd (InMemory.UpdateRecipeHandler
              (mkContext "c0" "" (inl Sample.lasagneBody)) Sample.kitchen))
    = [InMemory.mkRecipe "" "Lasagne" ["italian"] [] [] 0;
       Sample.pizza; Sample.cake]
  (* MongoDB: the pasta keeps its identifier 7 and its time 100 *)
  /\ Mongo.collection
       (snd (Mongo.UpdateRecipeHandler None
               (mkContext Sample.pastaHex "" (inl Sample.mlasagneBody))
               Sample.pantry))
     = [Mongo.mkRecipe 7%N "Lasagne" ["italian"] [] [] 100; Sample.mcake].
Proof.
  destruct update_replaces_record as [Hmem Hdb]. split.
  - rewrite (Hmem (mkContext "c0" "" (inl Sample.lasagneBody)) Sample.kitchen
                  [] [Sample.pizza; Sample.cake] Sample.pasta Sample.lasagneBody);
      [reflexivity | reflexivity | reflexivity | constructor | reflexivity].
  - destruct (Hdb (mkContext Sample.pastaHex "" (inl Sample.mlasagneBody))
                  Sample.pantry 7%N [] [Sample.mcake] Sample.mpasta
                  Sample.mlasagneBody) as [_ Hcoll];
      [reflexivity | reflexivity | reflexivity | reflexivity | constructor |].
    exact Hcoll.
Defined.

(** ** Validation before the store *)

(** A path identifier of any other length than 24 is not in the format of
    the MongoDB variant. *)
Lemma ObjectIDFromHex_wrong_length (s : string) :
  String.length s <> 24%nat ->
  Mongo.ObjectIDFromHex s = inr "the provided hex string is not a valid ObjectID".
Proof.
  intros Hlen. unfold Mongo.ObjectIDFromHex.
  apply Nat.eqb_neq in Hlen. by rewrite Hlen.
Qed.

(** C6.  A request whose body does not bind, or whose path identifier is
    not in the format the MongoDB variant expects, is answered 400 and
    leaves the whole state as it was: the stored recipes, the identifier
    counter, and the record of driver calls, so no call reached the
    store.  The in-memory variant accepts every string as identifier. *)
Theorem malformed_requests_stop_before_store :
  (forall (xid_at : nat -> string) (elapsed : N) (id tag err : string)
          (w : InMemory.World),
      InMemory.NewRecipeHandler xid_at elapsed (mkContext id tag (inr err)) w
        = (JSON Http.StatusBadRequest (H "error" err), w))
  /\
  (forall (id tag err : string) (w : InMemory.World),
      InMemory.UpdateRecipeHandler (mkContext id tag (inr err)) w
        = (JSON Http.StatusBadRequest (H "error" err), w))
  /\
  (forall (oid_at : nat -> Mongo.ObjectID) (elapsed : N)
          (fault : option string) (id tag err : string) (w : Mongo.World),
      Mongo.NewRecipeHandler oid_at elapsed fault (mkContext id tag (inr err)) w
        = (JSON Http.StatusBadRequest (H "error" err), w))
  /\
  (forall (fault : option string) (id tag err : string) (w : Mongo.World),
      let res := Mongo.UpdateRecipeHandler fault (mkContext id tag (inr err)) w in
      status (fst res) = Http.StatusBadRequest /\ snd res = w)
  /\
  (forall (fault : option string) (c : Context Mongo.Recipe) (err : string)
          (w : Mongo.World),
      Mongo.ObjectIDFromHex (Param_id c) = inr err ->
      Mongo.UpdateRecipeHandler fault c w
        = (JSON Http.StatusBadRequest (H "error" err), w))
  /\
  (forall (fault : option string) (c : Context Mongo.Recipe) (err : string)
          (w : Mongo.World),
      Mongo.ObjectIDFromHex (Param_id c) = inr err ->
      Mongo.DeleteRecipeHandler fault c w
        = (JSON Http.StatusBadRequest (H "error" err), w)).
Proof.
  split; [reflexivity|]. split; [reflexivity|]. split; [reflexivity|].
  split; [|split].
  - intros fault id tag err w. unfold Mongo.UpdateRecipeHandler.
    cbn [Param_id ShouldBindJSON].
    by destruct (Mongo.ObjectIDFromHex id).
  - intros fault c err w Hhex. unfold Mongo.UpdateRecipeHandler.
    by rewrite Hhex.
  - intros fault c err w Hhex. unfold Mongo.DeleteRecipeHandler.
    by rewrite Hhex.
Qed.

Lemma malformed_requests_stop_before_store_witness :
  Mongo.ObjectIDFromHex "pasta"
    = inr "the provided hex string is not a valid ObjectID"
  /\ Mongo.UpdateRecipeHandler None
       (mkContext "pasta" "" (inl Sample.mlasagneBody)) Sample.pantry
     = (JSON 400 (H "error" "the provided hex string is not a valid ObjectID"),
        Sample.pantry)
  /\ Mongo.DeleteRecipeHandler None
       (mkContext "5f8f8c44b54764421b7156cz" "" (inr "EOF")) Sample.pantry
     = (JSON 400 (H "error" "encoding/hex: invalid byte"), Sample.pantry).
Proof.
  destruct malformed_requests_stop_before_store
    as (_ & _ & _ & _ & Hupdate & Hdelete).
  split; [reflexivity|]. split.
  - apply Hupdate. reflexivity.
  - apply Hdelete. reflexivity.
Defined.

(** ** The session gate *)

(** Without a session the store holds, the session middleware attaches
    nothing. *)
Lemma sessions_attach_nothing (Store : Type) (r : Main.Request)
    (live : list string) (s : Store) :
  Main.validSession live r = false ->
  Main.Sessions Store
    (Main.enter Store "Sessions"
       (Main.mkContext Store r live None None false s []))
  = Main.mkContext Store r live None None false s ["Sessions"].
Proof.
  unfold Main.validSession, Main.Sessions, Main.enter, Main.setSession.
  cbn. destruct (Main.cookie r) as [tok|]; [intros ->|]; reflexivity.
Qed.

(** C7.  A request to one of the five routes of the authorized group that
    carries no session the session store holds is answered 401 by the auth
    middleware, which aborts the chain: only the session middleware and the
    gate are entered, and the store behind the recipe handlers is the one
    the request found, whatever those handlers would have done. *)
Theorem protected_routes_reject_without_session :
  forall (Store : Type) (recipesHandler : Main.RecipesHandler Store)
         (authHandler : Main.AuthHandler Store)
         (r : Main.Request) (e : Main.Endpoint)
         (live : list string) (s : Store),
    Main.endpoint r = Some e ->
    Main.protected e = true ->
    Main.validSession live r = false ->
    let c := Main.serve Store recipesHandler authHandler r live s in
    Main.written Store c = Some Http.StatusUnauthorized
    /\ Main.aborted Store c = true
    /\ Main.store Store c = s
    /\ Main.liveSessions Store c = live
    /\ Main.entered Store c = ["Sessions"; "AuthMiddleware"].
Proof.
  intros Store rh ah r e live s Hroute Hprot Hsession c. subst c.
  unfold Main.serve. rewrite Hroute.
  destruct e; try discriminate Hprot;
    unfold Main.chain, Main.authorized, Main.routerMiddleware;
    cbn [app Main.runChain];
    rewrite (sessions_attach_nothing Store r live s Hsession);
    cbn; repeat split; reflexivity.
Qed.

Lemma protected_routes_reject_without_session_witness :
  let r := Main.mkRequest Main.DELETE ["recipes"; "c0"] (Some "stale") in
  (* a store of natural numbers, and handlers that would overwrite it *)
  let wipe : Main.HandlerFunc nat := fun c =>
    Main.mkContext nat (Main.request nat c) (Main.liveSessions nat c)
                   (Main.session nat c) (Some 200) false 0%nat
                   (Main.entered nat c) in
  let c := Main.serve nat
             (Main.mkRecipesHandler nat wipe wipe wipe wipe wipe)
             (Main.mkAuthHandler nat wipe wipe) r ["fresh"] 42%nat in
  Main.written nat c = Some 401 /\ Main.store nat c = 42%nat
  /\ Main.entered nat c = ["Sessions"; "AuthMiddleware"].
Proof.
  intros r wipe c.
  destruct (protected_routes_reject_without_session nat
              (Main.mkRecipesHandler nat wipe wipe wipe wipe wipe)
              (Main.mkAuthHandler nat wipe wipe) r Main.DeleteRecipe
              ["fresh"] 42%nat)
    as (Hstatus & _ & Hstore & _ & Hentered);
    [reflexivity | reflexivity | reflexivity |].
  split; [exact Hstatus|]. split; [exact Hstore | exact Hentered].
Defined.

(** With a live session the same request reaches the handler. *)
Example protected_route_with_session :
  let wipe : Main.HandlerFunc nat := fun c =>
    Main.mkContext nat (Main.request nat c) (Main.liveSessions nat c)
                   (Main.session nat c) (Some 200) false 0%nat
                   (Main.entered nat c) in
  let c := Main.serve nat
             (Main.mkRecipesHandler nat wipe wipe wipe wipe wipe)
             (Main.mkAuthHandler nat wipe wipe)
             (Main.mkRequest Main.DELETE ["recipes"; "c0"] (Some "fresh"))
             ["fresh"] 42%nat in
  Main.written nat c = Some 200 /\ Main.store nat c = 0%nat
  /\ Main.entered nat c = ["Sessions"; "AuthMiddleware"; "DeleteRecipeHandler"].
Proof. cbn. repeat split; reflexivity. Qed.

(** * Further properties of the in-memory variant *)

Section InMemoryFurther.
Import InMemory.

(** The outcome of the first-match loop, in the shape the handlers use. *)
Lemma rangeFind_cases (id : string) (rs : list Recipe) :
  (rangeFind id rs 0 = None /\ Forall (fun r => ID r <> id) rs)
  \/ (exists pre r post,
        rs = pre ++ r :: post /\ rangeFind id rs 0 = Some (length pre)
        /\ ID r = id /\ Forall (fun r' => ID r' <> id) pre).
Proof.
  pose proof (rangeFind_spec id rs 0) as Hs.
  destruct (rangeFind id rs 0) as [j|]; [right | by left].
  destruct Hs as (pre & r & post & Hsplit & Hj & Hid & Hpre).
  exists pre, r, post. cbn in Hj. by subst j.
Qed.

(** What an update does to the slice, case by case. *)
Lemma update_cases (c : Context Recipe) (w : World) :
  snd (UpdateRecipeHandler c w) = w
  \/ (exists pre r post body,
        recipes w = pre ++ r :: post /\ ID r = Param_id c
        /\ Forall (fun r' => ID r' <> Param_id c) pre
        /\ ShouldBindJSON c = inl body
        /\ UpdateRecipeHandler c w
           = (JSON Http.StatusOK (OneRecipe body),
              mkWorld (pre ++ body :: post) (xidCounter w) (clock w))).
Proof.
  destruct (ShouldBindJSON c) as [body|err] eqn:Hbind.
  - destruct (rangeFind_cases (Param_id c) (recipes w))
      as [[_ Hall]|(pre & r & post & Hsplit & _ & Hid & Hpre)].
    + left. by rewrite (update_absent_run c w body Hbind Hall).
    + right. exists pre, r, post, body. repeat split; try assumption.
      by apply update_run with (r := r).
  - left. unfold UpdateRecipeHandler. by rewrite Hbind.
Qed.

(** What a delete does to the slice, case by case. *)
Lemma delete_cases (c : Context Recipe) (w : World) :
  (DeleteRecipeHandler c w
     = (JSON Http.StatusNotFound (H "error" "recipe not found"), w)
   /\ Forall (fun r => ID r <> Param_id c) (recipes w))
  \/ (exists pre r post,
        recipes w = pre ++ r :: post /\ ID r = Param_id c
        /\ Forall (fun r' => ID r' <> Param_id c) pre
        /\ DeleteRecipeHandler c w
           = (JSON Http.StatusOK (H "message" "recipe deleted"),
              mkWorld (pre ++ post) (xidCounter w) (clock w))).
Proof.
  destruct (rangeFind_cases (Param_id c) (recipes w))
    as [[_ Hall]|(pre & r & post & Hsplit & _ & Hid & Hpre)].
  - left. split; [by apply delete_absent_run | assumption].
  - right. exists pre, r, post. repeat split; try assumption.
    by apply delete_run with (r := r).
Qed.

End InMemoryFurther.

(** X1.  An in-memory update, whatever its outcome, keeps the number of
    stored records, the identifier counter and the clock, and leaves every
    record whose identifier differs from the path identifier at its
    position. *)
Theorem update_keeps_other_records :
  forall (c : Context InMemory.Recipe) (w : InMemory.World),
    let w' := snd (InMemory.UpdateRecipeHandler c w) in
    length (InMemory.recipes w') = length (InMemory.recipes w)
    /\ InMemory.xidCounter w' = InMemory.xidCounter w
    /\ InMemory.clock w' = InMemory.clock w
    /\ forall (j : nat) (r : InMemory.Recipe),
        InMemory.recipes w !! j = Some r ->
        InMemory.ID r <> Param_id c ->
        InMemory.recipes w' !! j = Some r.
Proof.
  intros c w w'. subst w'.
  destruct (update_cases c w)
    as [->|(pre & r0 & post & body & Hsplit & Hid & Hpre & Hbind & ->)].
  - repeat split; auto.
  - cbn [snd InMemory.recipes InMemory.xidCounter InMemory.clock].
    rewrite Hsplit. split; [by rewrite !length_app|]. repeat split.
    intros j r Hj Hne.
    destruct (decide (j = length pre)) as [->|Hother].
    + rewrite list_lookup_middle in Hj by reflexivity. congruence.
    + rewrite <- Hj, <- (insert_at_split pre post body r0).
      by apply list_lookup_insert_ne.
Qed.

(** X2.  After a successful in-memory update whose body carries another
    identifier than the path, a record that was the only one with the path
    identifier can no longer be reached: the next update and the next
    delete under that identifier are answered 404 and change nothing. *)
Theorem update_with_other_id_orphans_record :
  forall (c : Context InMemory.Recipe) (w : InMemory.World)
         (pre post : list InMemory.Recipe) (r body : InMemory.Recipe),
    InMemory.recipes w = pre ++ r :: post ->
    InMemory.ID r = Param_id c ->
    Forall (fun r' => InMemory.ID r' <> Param_id c) pre ->
    Forall (fun r' => InMemory.ID r' <> Param_id c) post ->
    ShouldBindJSON c = inl body ->
    InMemory.ID body <> Param_id c ->
    let w1 := snd (InMemory.UpdateRecipeHandler c w) in
    status (fst (InMemory.UpdateRecipeHandler c w)) = Http.StatusOK
    /\ InMemory.UpdateRecipeHandler c w1
       = (JSON Http.StatusNotFound (H "error" "recipe not found"), w1)
    /\ InMemory.DeleteRecipeHandler c w1
       = (JSON Http.StatusNotFound (H "error" "recipe not found"), w1).
Proof.
  intros c w pre post r body Hsplit Hid Hpre Hpost Hbind Hbody w1. subst w1.
  rewrite (update_run c w pre post r body Hsplit Hid Hpre Hbind).
  cbn [fst snd status]. split; [reflexivity|].
  assert (Hall : Forall (fun r' => InMemory.ID r' <> Param_id c)
                        (pre ++ body :: post)).
  { apply Forall_app. split; [assumption|]. by constructor. }
  split.
  - by apply update_absent_run with (body := body).
  - by apply delete_absent_run.
Qed.

Lemma update_with_other_id_orphans_record_witness :
  let c := mkContext "c0" "" (inl Sample.lasagneBody) in
  let w1 := snd (InMemory.UpdateRecipeHandler c Sample.kitchen) in
  InMemory.UpdateRecipeHandler c w1
    = (JSON 404 (H "error" "recipe not found"), w1)
  /\ InMemory.DeleteRecipeHandler c w1
     = (JSON 404 (H "error" "recipe not found"), w1).
Proof.
  intros c w1.
  destruct (update_with_other_id_orphans_record c Sample.kitchen
              [] [Sample.pizza; Sample.cake] Sample.pasta Sample.lasagneBody)
    as (_ & Hupd & Hdel).
  - reflexivity.
  - reflexivity.
  - constructor.
  - repeat constructor; cbn; discriminate.
  - reflexivity.
  - cbn. discriminate.
  - split; [exact Hupd | exact Hdel].
Defined.

(** X3.  An in-memory update whose body carries the identifier of the path
    leaves the sequence of stored identifiers as it was. *)
Theorem update_with_own_id_keeps_ids :
  forall (c : Context InMemory.Recipe) (w : InMemory.World)
         (body : InMemory.Recipe),
    ShouldBindJSON c = inl body ->
    InMemory.ID body = Param_id c ->
    InMemory.ID <$> InMemory.recipes (snd (InMemory.UpdateRecipeHandler c w))
      = InMemory.ID <$> InMemory.recipes w.
Proof.
  intros c w body Hbind Hown.
  destruct (update_cases c w)
    as [->|(pre & r0 & post & body' & Hsplit & Hid & Hpre & Hbind' & ->)];
    [reflexivity|].
  cbn [snd InMemory.recipes]. rewrite Hsplit, !fmap_app, !fmap_cons.
  congruence.
Qed.

Lemma update_with_own_id_keeps_ids_witness :
  InMemory.ID <$> InMemory.recipes
      (snd (InMemory.UpdateRecipeHandler
              (mkContext "c1" "" (inl Sample.cake)) Sample.kitchen))
    = ["c0"; "c1"; "c1"].
Proof.
  rewrite (update_with_own_id_keeps_ids
             (mkContext "c1" "" (inl Sample.cake)) Sample.kitchen Sample.cake);
    reflexivity.
Defined.

(** X4.  In memory, creating a recipe and then deleting the identifier the
    create returned gives back the slice as it was before, provided no
    stored record already carried that identifier. *)
Theorem create_then_delete_restores :
  forall (xid_at : nat -> string) (elapsed : N) (id tag : string)
         (body : InMemory.Recipe) (bodyD : InMemory.Recipe + string)
         (w : InMemory.World),
    Forall (fun r => InMemory.ID r <> xid_at (InMemory.xidCounter w))
           (InMemory.recipes w) ->
    let created :=
      InMemory.NewRecipeHandler xid_at elapsed (mkContext id tag (inl body)) w in
    let deleted :=
      InMemory.DeleteRecipeHandler
        (mkContext (xid_at (InMemory.xidCounter w)) tag bodyD) (snd created) in
    status (fst created) = Http.StatusOK
    /\ status (fst deleted) = Http.StatusOK
    /\ InMemory.recipes (snd deleted) = InMemory.recipes w.
Proof.
  intros xid_at elapsed id tag body bodyD w Hfresh created deleted.
  subst created deleted. rewrite create_run. cbn [fst snd status].
  split; [reflexivity|].
  rewrite (delete_run _ _ (InMemory.recipes w) []
             (InMemory.mkRecipe (xid_at (InMemory.xidCounter w))
                (InMemory.Name body) (InMemory.Tags body)
                (InMemory.Ingredients body) (InMemory.Instructions body)
                (InMemory.clock w + Z.of_N elapsed)));
    [|reflexivity|reflexivity|exact Hfresh].
  cbn [fst snd status InMemory.recipes]. by rewrite app_nil_r.
Qed.

Lemma create_then_delete_restores_witness :
  let created :=
    InMemory.NewRecipeHandler Sample.xid_at 3%N
      (mkContext "" "" (inl Sample.lasagneBody)) Sample.kitchen in
  InMemory.recipes
    (snd (InMemory.DeleteRecipeHandler (mkContext "xii" "" (inr "EOF"))
            (snd created)))
  = [Sample.pasta; Sample.pizza; Sample.cake].
Proof.
  intros created.
  destruct (create_then_delete_restores Sample.xid_at 3%N "" ""
              Sample.lasagneBody (inr "EOF") Sample.kitchen)
    as (_ & _ & Hback).
  - repeat constructor; cbn; discriminate.
  - exact Hback.
Defined.

(** X5.  In memory, when exactly one stored record has the identifier, the
    first delete is answered 200 and the second 404, and the second leaves
    the slice as the first left it. *)
Theorem delete_twice :
  forall (c : Context InMemory.Recipe) (w : InMemory.World)
         (pre post : list InMemory.Recipe) (r : InMemory.Recipe),
    InMemory.recipes w = pre ++ r :: post ->
    InMemory.ID r = Param_id c ->
    Forall (fun r' => InMemory.ID r' <> Param_id c) pre ->
    Forall (fun r' => InMemory.ID r' <> Param_id c) post ->
    let first := InMemory.DeleteRecipeHandler c w in
    let second := InMemory.DeleteRecipeHandler c (snd first) in
    status (fst first) = Http.StatusOK
    /\ status (fst second) = Http.StatusNotFound
    /\ snd second = snd first
    /\ InMemory.recipes (snd second) = pre ++ post.
Proof.
  intros c w pre post r Hsplit Hid Hpre Hpost first second.
  subst first second.
  rewrite (delete_run c w pre post r Hsplit Hid Hpre). cbn [fst snd status].
  split; [reflexivity|].
  rewrite delete_absent_run; [by repeat split|].
  cbn [InMemory.recipes]. apply Forall_app. by split.
Qed.

Lemma delete_twice_witness :
  let c := mkContext "c0" "" (inr "EOF") in
  let first := InMemory.DeleteRecipeHandler c Sample.kitchen in
  status (fst first) = 200
  /\ status (fst (InMemory.DeleteRecipeHandler c (snd first))) = 404.
Proof.
  intros c first.
  destruct (delete_twice c Sample.kitchen [] [Sample.pizza; Sample.cake]
              Sample.pasta) as (Hone & Htwo & _).
  - reflexivity.
  - reflexivity.
  - constructor.
  - repeat constructor; cbn; discriminate.
  - split; [exact Hone | exact Htwo].
Defined.

(** X9.  In memory, right after a create whose body holds the tag, a search
    for the tag answers with the earlier matches followed by the new record
    as last element. *)
Theorem create_then_search_finds_record :
  forall (xid_at : nat -> string) (elapsed : N) (id tag : string)
         (body : InMemory.Recipe) (c : Context InMemory.Recipe)
         (w : InMemory.World),
    Query_tag c ∈ InMemory.Tags body ->
    let created :=
      InMemory.NewRecipeHandler xid_at elapsed (mkContext id tag (inl body)) w in
    exists r,
      fst created = JSON Http.StatusOK (OneRecipe r)
      /\ fst (InMemory.SearchRecipesHandler c (snd created))
         = JSON Http.StatusOK
             (Recipes (filter (fun r' => Query_tag c ∈ InMemory.Tags r')
                              (InMemory.recipes w) ++ [r])).
Proof.
  intros xid_at elapsed id tag body c w Hin created. subst created.
  rewrite create_run. cbn [fst snd]. eexists. split; [reflexivity|].
  rewrite search_run. cbn [fst InMemory.recipes].
  rewrite filter_app, filter_cons, decide_True by exact Hin.
  by rewrite filter_nil.
Qed.

Lemma create_then_search_finds_record_witness :
  fst (InMemory.SearchRecipesHandler (mkContext "" "italian" (inr "EOF"))
         (snd (InMemory.NewRecipeHandler Sample.xid_at 3%N
                 (mkContext "" "" (inl Sample.lasagneBody)) Sample.kitchen)))
  = JSON 200 (Recipes [Sample.pasta; Sample.pizza;
                       InMemory.mkRecipe "xii" "Lasagne" ["italian"] [] [] 403]).
Proof.
  destruct (create_then_search_finds_record Sample.xid_at 3%N "" ""
              Sample.lasagneBody (mkContext "" "italian" (inr "EOF"))
              Sample.kitchen) as (r & Hr & Hsearch).
  - cbn. apply elem_of_cons. by left.
  - rewrite Hsearch. injection Hr as <-. reflexivity.
Defined.

(** * Further properties of the routers *)

Lemma snd_served {A B : Type} (p : A * B) :
  snd (let '(a, b) := p in (Some a, b)) = snd p.
Proof. by destruct p. Qed.

Lemma fst_served {A B : Type} (p : A * B) :
  fst (let '(a, b) := p in (Some a, b)) = Some (fst p).
Proof. by destruct p. Qed.

(** A GET request reaches the list or the search handler, if any. *)
Lemma endpoint_GET (path : list string) (e : OpenRoutes.Endpoint) (id : string) :
  OpenRoutes.endpoint Main.GET path = Some (e, id) ->
  e = OpenRoutes.ListRecipes \/ e = OpenRoutes.SearchRecipes.
Proof.
  unfold OpenRoutes.endpoint. intros Hroute.
  repeat case_match; simplify_eq; auto.
Qed.

(** X8.  Served by the in-memory router, a GET request never changes the
    state: not the slice, not the identifier counter, not the clock. *)
Theorem in_memory_get_is_read_only :
  forall (xid_at : nat -> string) (r : OpenRoutes.Request InMemory.Recipe)
         (w : InMemory.World),
    OpenRoutes.method r = Main.GET ->
    snd (OpenRoutes.serveInMemory xid_at r w) = w.
Proof.
  intros xid_at r w Hget. unfold OpenRoutes.serveInMemory. rewrite Hget.
  destruct (OpenRoutes.endpoint Main.GET (OpenRoutes.path r))
    as [[e id]|] eqn:Hroute; [|reflexivity].
  destruct (endpoint_GET _ _ _ Hroute) as [->| ->]; reflexivity.
Qed.

Lemma in_memory_get_is_read_only_witness :
  snd (OpenRoutes.serveInMemory Sample.xid_at
         (OpenRoutes.mkRequest Main.GET ["recipes"; "search"] "italian"
                               (inl Sample.cake) 5%N None None None)
         Sample.kitchen)
  = Sample.kitchen.
Proof. apply in_memory_get_is_read_only. reflexivity. Defined.

(** X7.  Served by the in-memory router, a request that is not answered 200
    (no route, 400, 404) leaves the state exactly as it was. *)
Theorem in_memory_failed_request_has_no_effect :
  forall (xid_at : nat -> string) (r : OpenRoutes.Request InMemory.Recipe)
         (w : InMemory.World),
    (forall resp, fst (OpenRoutes.serveInMemory xid_at r w) = Some resp ->
                  status resp <> Http.StatusOK) ->
    snd (OpenRoutes.serveInMemory xid_at r w) = w.
Proof.
  intros xid_at r w. unfold OpenRoutes.serveInMemory.
  destruct (OpenRoutes.endpoint (OpenRoutes.method r) (OpenRoutes.path r))
    as [[e id]|]; [|reflexivity].
  destruct e; cbn [fst snd].
  - destruct (OpenRoutes.body r) as [body|err] eqn:Hbody.
    + rewrite create_run. intros Hfail. by destruct (Hfail _ eq_refl).
    + by rewrite create_rejected.
  - reflexivity.
  - destruct (update_cases (mkContext id (OpenRoutes.tag r) (OpenRoutes.body r)) w)
      as [Hsame|(pre & r0 & post & body & _ & _ & _ & _ & Hrun)].
    + intros _.
      by destruct (InMemory.UpdateRecipeHandler
                     (mkContext id (OpenRoutes.tag r) (OpenRoutes.body r)) w).
    + rewrite Hrun. intros Hfail. by destruct (Hfail _ eq_refl).
  - destruct (delete_cases (mkContext id (OpenRoutes.tag r) (OpenRoutes.body r)) w)
      as [[Hrun _]|(pre & r0 & post & _ & _ & _ & Hrun)]; rewrite Hrun.
    + reflexivity.
    + intros Hfail. by destruct (Hfail _ eq_refl).
  - reflexivity.
Qed.

Lemma in_memory_failed_request_has_no_effect_witness :
  snd (OpenRoutes.serveInMemory Sample.xid_at
         (OpenRoutes.mkRequest Main.DELETE ["recipes"; "zz"] ""
                               (inr "EOF") 5%N None None None)
         Sample.kitchen)
  = Sample.kitchen.
Proof.
  apply in_memory_failed_request_has_no_effect.
  intros resp Hresp. injection Hresp as <-. cbn. discriminate.
Defined.

(** ** Uniqueness of the stored identifiers, in memory *)

Section IdsFromSource.
Import InMemory.
Variable xid_at : nat -> string.
Hypothesis xid_never_repeats : forall m n, xid_at m = xid_at n -> m = n.

Lemma NoDup_cut {A : Type} (l1 l2 : list A) (x : A) :
  NoDup (l1 ++ x :: l2) -> NoDup (l1 ++ l2).
Proof.
  rewrite !NoDup_app, NoDup_cons. intros (H1 & H2 & _ & H3).
  repeat split; [assumption | | assumption].
  intros y Hy Hy2. apply (H2 y Hy), elem_of_cons. by right.
Qed.





End IdsFromSource.



(** * Further properties of the MongoDB variant *)

(** ** Identifiers on the wire *)

(** X11.  In the MongoDB variant, a recipe that was just created can be
    deleted under the hexadecimal form of the identifier the create
    returned, and the collection is then as before the create (driver calls
    going through, the new identifier being twelve bytes and not already
    in the collection). *)
Theorem mongo_create_then_delete_restores :
  forall (oid_at : nat -> Mongo.ObjectID) (elapsed : N) (id tag : string)
         (body : Mongo.Recipe) (bodyD : Mongo.Recipe + string)
         (w : Mongo.World),
    (oid_at (Mongo.oidCounter w) < 2 ^ 96)%N ->
    Forall (fun d => Mongo.ID d <> oid_at (Mongo.oidCounter w))
           (Mongo.collection w) ->
    let created :=
      Mongo.NewRecipeHandler oid_at elapsed None (mkContext id tag (inl body)) w in
    let deleted :=
      Mongo.DeleteRecipeHandler None
        (mkContext (Mongo.Hex (oid_at (Mongo.oidCounter w))) tag bodyD)
        (snd created) in
    status (fst created) = Http.StatusCreated
    /\ status (fst deleted) = Http.StatusOK
    /\ Mongo.collection (snd deleted) = Mongo.collection w.
Proof.
  intros oid_at elapsed id tag body bodyD w Hsize Hfresh created deleted.
  subst created deleted.
  rewrite (mongo_create_run oid_at elapsed id tag body w Hfresh).
  cbn [fst snd status]. split; [reflexivity|].
  rewrite (mongo_delete_run _ _ (oid_at (Mongo.oidCounter w))
             (Mongo.collection w) []
             (Mongo.stored
                (Mongo.mkRecipe (oid_at (Mongo.oidCounter w)) (Mongo.Name body)
                   (Mongo.Tags body) (Mongo.Ingredients body)
                   (Mongo.Instructions body) (Mongo.clock w + Z.of_N elapsed))));
    [| by apply ObjectIDFromHex_Hex | reflexivity | reflexivity
     | exact Hfresh].
  cbn [fst snd status Mongo.collection]. by rewrite app_nil_r.
Qed.

Lemma mongo_create_then_delete_restores_witness :
  let created :=
    Mongo.NewRecipeHandler Sample.oid_at 3%N None
      (mkContext "" "" (inl Sample.mlasagneBody)) Sample.pantry in
  fst created
    = JSON 201 (OneRecipe (Mongo.mkRecipe 9%N "Lasagne" ["italian"] [] [] 403))
  /\ Mongo.Hex 9%N = "000000000000000000000009"
  /\ Mongo.collection
       (snd (Mongo.DeleteRecipeHandler None
               (mkContext "000000000000000000000009" "" (inr "EOF"))
               (snd created)))
     = [Sample.mpasta; Sample.mcake].
Proof.
  intros created.
  split; [reflexivity|]. split; [vm_compute; reflexivity|].
  destruct (mongo_create_then_delete_restores Sample.oid_at 3%N "" ""
              Sample.mlasagneBody (inr "EOF") Sample.pantry)
    as (_ & _ & Hback).
  - vm_compute. reflexivity.
  - repeat constructor; cbn; discriminate.
  - exact Hback.
Defined.

(** ** The handlers of the MongoDB variant, case by case *)

Section MongoCases.
Import Mongo.

Lemma firstMatch_id_cases (objID : ObjectID) (docs : list Recipe) :
  (firstMatch (FilterID objID) docs 0 = None
   /\ Forall (fun d => ID d <> objID) docs)
  \/ (exists pre d post,
        docs = pre ++ d :: post
        /\ firstMatch (FilterID objID) docs 0 = Some (length pre)
        /\ ID d = objID /\ Forall (fun d' => ID d' <> objID) pre).
Proof.
  pose proof (firstMatch_spec (FilterID objID) docs 0) as Hs.
  destruct (firstMatch (FilterID objID) docs 0) as [j|].
  - right. destruct Hs as (pre & d & post & Hsplit & Hj & Hd & Hpre).
    exists pre, d, post. cbn in Hj. subst j.
    split; [assumption|]. split; [reflexivity|].
    split; [by apply matches_id|].
    eapply Forall_impl; [exact Hpre|].
    intros d' Hd'. cbn [matches] in Hd'. by apply N.eqb_neq.
  - left. split; [reflexivity|].
    eapply Forall_impl; [exact Hs|].
    intros d Hd. cbn [matches] in Hd. by apply N.eqb_neq.
Qed.

(** A create either leaves the collection and answers 400 or 500, or
    appends the new document and answers 201. *)
Lemma mongo_create_cases (oid_at : nat -> ObjectID) (elapsed : N)
    (fault : option string) (c : Context Recipe) (w : World) :
  let res := NewRecipeHandler oid_at elapsed fault c w in
  (collection (snd res) = collection w
   /\ (status (fst res) = Http.StatusBadRequest
       \/ status (fst res) = Http.StatusInternalServerError))
  \/ (exists r,
        fault = None
        /\ ID r = oid_at (oidCounter w)
        /\ Forall (fun d => ID d <> ID r) (collection w)
        /\ status (fst res) = Http.StatusCreated
        /\ collection (snd res) = collection w ++ [r]).
Proof.
  intros res. subst res. destruct c as [id tag [body|err]].
  - unfold NewRecipeHandler, InsertOne.
    cbn [ShouldBindJSON NewObjectID time_Now logCall collection set_ID
         set_PublishedAt ID Name Tags Ingredients Instructions PublishedAt
         oidCounter clock calls].
    destruct fault as [e|]; [left; split; [reflexivity | by right]|].
    destruct (firstMatch_id_cases (oid_at (oidCounter w)) (collection w))
      as [[Hnone Hall]|(pre & d & post & _ & Hsome & _ & _)].
    + rewrite Hnone. right.
      exists (stored (mkRecipe (oid_at (oidCounter w)) (Name body) (Tags body)
                               (Ingredients body) (Instructions body)
                               (clock w + Z.of_N elapsed))).
      split; [reflexivity|].
      split; [reflexivity|]. split; [exact Hall|]. split; reflexivity.
    + rewrite Hsome. left. split; [reflexivity | by right].
  - left. split; [reflexivity | by left].
Qed.

(** An update never adds or removes a document; it answers 400, 500 or,
    whenever the driver reports no error, 200; when it changes the
    collection, one document takes the four fields of the body. *)
Lemma mongo_update_cases (fault : option string) (c : Context Recipe)
    (w : World) :
  let res := UpdateRecipeHandler fault c w in
  (collection (snd res) = collection w
   /\ (status (fst res) = Http.StatusBadRequest
       \/ status (fst res) = Http.StatusInternalServerError
       \/ (status (fst res) = Http.StatusOK /\ fault = None)))
  \/ (exists pre d post body,
        fault = None
        /\ collection w = pre ++ d :: post
        /\ ShouldBindJSON c = inl body
        /\ status (fst res) = Http.StatusOK
        /\ collection (snd res) = pre ++ applySet body d :: post).
Proof.
  intros res. subst res. unfold UpdateRecipeHandler.
  destruct (ObjectIDFromHex (Param_id c)) as [objID|err];
    [|left; split; [reflexivity | by left]].
  destruct (ShouldBindJSON c) as [body|err] eqn:Hbind;
    [|left; split; [reflexivity | by left]].
  unfold UpdateOne. cbn [logCall collection].
  destruct fault as [e|]; [left; split; [reflexivity | right; by left]|].
  destruct (firstMatch_id_cases objID (collection w))
    as [[Hnone _]|(pre & d & post & Hsplit & Hsome & _ & _)].
  - rewrite Hnone. left. split; [reflexivity | right; right; by split].
  - rewrite Hsome. right. exists pre, d, post, body.
    split; [reflexivity|]. split; [assumption|]. split; [reflexivity|].
    split; [reflexivity|].
    cbn [snd setCollection collection]. rewrite Hsplit. apply alter_at_split.
Qed.

(** A delete either leaves the collection and answers 400, 404 or 500, or
    removes one document and answers 200. *)
Lemma mongo_delete_cases (fault : option string) (c : Context Recipe)
    (w : World) :
  let res := DeleteRecipeHandler fault c w in
  (collection (snd res) = collection w
   /\ (status (fst res) = Http.StatusBadRequest
       \/ status (fst res) = Http.StatusInternalServerError
       \/ (status (fst res) = Http.StatusNotFound /\ fault = None)))
  \/ (exists pre d post,
        fault = None
        /\ collection w = pre ++ d :: post
        /\ status (fst res) = Http.StatusOK
        /\ collection (snd res) = pre ++ post).
Proof.
  intros res. subst res. unfold DeleteRecipeHandler.
  destruct (ObjectIDFromHex (Param_id c)) as [objID|err];
    [|left; split; [reflexivity | by left]].
  unfold DeleteOne. cbn [logCall collection].
  destruct fault as [e|]; [left; split; [reflexivity | right; by left]|].
  destruct (firstMatch_id_cases objID (collection w))
    as [[Hnone _]|(pre & d & post & Hsplit & Hsome & _ & _)].
  - rewrite Hnone. left. split; [reflexivity | right; right; by split].
  - rewrite Hsome. right. exists pre, d, post.
    split; [reflexivity|]. split; [assumption|]. split; [reflexivity|].
    cbn [snd Z.eqb setCollection collection]. rewrite Hsplit.
    apply cut_at_split.
Qed.

(** List and search only read. *)
Lemma mongo_list_reads (fault : option string) (broken : option nat)
    (c : Context Recipe) (w : World) :
  snd (ListRecipesHandler fault broken c w) = logCall (CallFind FilterAll) w.
Proof. unfold ListRecipesHandler, Find. by destruct fault. Qed.

Lemma mongo_search_reads (fault cursorFault : option string)
    (c : Context Recipe) (w : World) :
  snd (SearchRecipesHandler fault cursorFault c w)
    = logCall (CallFind (FilterTags (Query_tag c))) w.
Proof.
  unfold SearchRecipesHandler, Find. destruct fault; [reflexivity|].
  by destruct cursorFault.
Qed.

End MongoCases.

Lemma fmap_alter_keep {A B : Type} (f : A -> B) (g : A -> A) (l : list A) (i : nat) :
  (forall x, f (g x) = f x) -> f <$> alter g i l = f <$> l.
Proof.
  intros Hkeep. revert i. induction l as [|x l IH]; intros [|i];
    try reflexivity.
  - cbn. by rewrite Hkeep.
  - exact (f_equal (cons (f x)) (IH i)).
Qed.

(** X12.  The MongoDB update handler, whatever the request and whatever
    the driver reports, never adds or removes a document and never changes
    the identifier or the publishedAt of any document. *)
Theorem mongo_update_keeps_ids_and_times :
  forall (fault : option string) (c : Context Mongo.Recipe) (w : Mongo.World),
    let w' := snd (Mongo.UpdateRecipeHandler fault c w) in
    length (Mongo.collection w') = length (Mongo.collection w)
    /\ Mongo.ID <$> Mongo.collection w' = Mongo.ID <$> Mongo.collection w
    /\ Mongo.PublishedAt <$> Mongo.collection w'
       = Mongo.PublishedAt <$> Mongo.collection w.
Proof.
  intros fault c w w'. subst w'.
  destruct (mongo_update_cases fault c w)
    as [[-> _]|(pre & d & post & body & _ & Hsplit & _ & _ & ->)];
    [by repeat split|].
  rewrite Hsplit, !length_app, !fmap_app, !fmap_cons. by repeat split.
Qed.

(** One request through the MongoDB router keeps the identifiers of the
    collection pairwise distinct. *)
Lemma mongo_ids_serve (oid_at : nat -> Mongo.ObjectID)
    (r : OpenRoutes.Request Mongo.Recipe) (w : Mongo.World) :
  NoDup (Mongo.ID <$> Mongo.collection w) ->
  NoDup (Mongo.ID <$> Mongo.collection (snd (OpenRoutes.serveMongo oid_at r w))).
Proof.
  intros Hnodup. unfold OpenRoutes.serveMongo.
  destruct (OpenRoutes.endpoint (OpenRoutes.method r) (OpenRoutes.path r))
    as [[e id]|]; [|assumption].
  set (c := mkContext id (OpenRoutes.tag r) (OpenRoutes.body r)).
  rewrite snd_served. destruct e.
  - destruct (mongo_create_cases oid_at (OpenRoutes.elapsed r)
                (OpenRoutes.fault r) c w)
      as [[-> _]|(d & _ & _ & Hfresh & _ & ->)]; [assumption|].
    rewrite fmap_app. apply NoDup_app. split; [assumption|].
    split; [|apply NoDup_singleton].
    intros x Hx Hnew. apply list_elem_of_singleton in Hnew.
    apply list_elem_of_fmap in Hx as (d' & -> & Hd').
    rewrite Forall_forall in Hfresh. exact (Hfresh d' Hd' Hnew).
  - by rewrite mongo_list_reads.
  - destruct (mongo_update_cases (OpenRoutes.fault r) c w)
      as [[-> _]|(pre & d & post & body & _ & Hsplit & _ & _ & ->)];
      [assumption|].
    rewrite Hsplit in Hnodup. by rewrite fmap_app, fmap_cons in *.
  - destruct (mongo_delete_cases (OpenRoutes.fault r) c w)
      as [[-> _]|(pre & d & post & _ & Hsplit & _ & ->)];
      [assumption|].
    rewrite Hsplit in Hnodup. rewrite fmap_app, fmap_cons in Hnodup.
    rewrite fmap_app. by apply NoDup_cut in Hnodup.
  - by rewrite mongo_search_reads.
Qed.

(** X13.  In the MongoDB variant the identifiers of the collection stay
    pairwise distinct along every sequence of requests through the router,
    whatever the requests, the driver faults and the identifier source: an
    insert only goes through for an identifier the collection does not
    hold, an update keeps identifiers, a delete only removes. *)
Theorem mongo_ids_stay_unique :
  forall (oid_at : nat -> Mongo.ObjectID)
         (rs : list (OpenRoutes.Request Mongo.Recipe)) (w : Mongo.World),
    NoDup (Mongo.ID <$> Mongo.collection w) ->
    NoDup (Mongo.ID <$> Mongo.collection (OpenRoutes.runMongo oid_at rs w)).
Proof.
  intros oid_at rs. induction rs as [|r rs IH]; intros w Hnodup;
    [exact Hnodup|].
  cbn [OpenRoutes.runMongo]. apply IH. by apply mongo_ids_serve.
Qed.

Lemma mongo_ids_stay_unique_witness :
  (* the identifier source repeats itself: the second insert is refused *)
  Mongo.ID <$> Mongo.collection
      (OpenRoutes.runMongo (fun _ => 9%N)
         [OpenRoutes.mkRequest Main.POST ["recipes"] ""
            (inl Sample.mlasagneBody) 1%N None None None;
          OpenRoutes.mkRequest Main.POST ["recipes"] ""
            (inl Sample.mcake) 1%N None None None]
         Sample.pantry)
    = [7%N; 8%N; 9%N]
  /\ NoDup (Mongo.ID <$> Mongo.collection
              (OpenRoutes.runMongo (fun _ => 9%N)
                 [OpenRoutes.mkRequest Main.POST ["recipes"] ""
                    (inl Sample.mlasagneBody) 1%N None None None;
                  OpenRoutes.mkRequest Main.POST ["recipes"] ""
                    (inl Sample.mcake) 1%N None None None]
                 Sample.pantry)).
Proof.
  split; [reflexivity|].
  apply mongo_ids_stay_unique. cbn.
  repeat (constructor; [intros Hin;
    repeat (apply elem_of_cons in Hin as [Hin|Hin]; [discriminate|]);
    by apply elem_of_nil in Hin|]).
  constructor.
Defined.

(** X14.  Served by the MongoDB router, a request that is answered neither
    200 nor 201 (no route, 400, 404, 500) leaves the collection as it
    was. *)
Theorem mongo_failed_request_keeps_collection :
  forall (oid_at : nat -> Mongo.ObjectID)
         (r : OpenRoutes.Request Mongo.Recipe) (w : Mongo.World),
    (forall resp, fst (OpenRoutes.serveMongo oid_at r w) = Some resp ->
                  status resp <> Http.StatusOK
                  /\ status resp <> Http.StatusCreated) ->
    Mongo.collection (snd (OpenRoutes.serveMongo oid_at r w))
      = Mongo.collection w.
Proof.
  intros oid_at r w. unfold OpenRoutes.serveMongo.
  destruct (OpenRoutes.endpoint (OpenRoutes.method r) (OpenRoutes.path r))
    as [[e id]|]; [|reflexivity].
  set (c := mkContext id (OpenRoutes.tag r) (OpenRoutes.body r)).
  rewrite snd_served, fst_served. intros Hfail.
  destruct (Hfail _ eq_refl) as [Hnot200 Hnot201]. clear Hfail. destruct e.
  - destruct (mongo_create_cases oid_at (OpenRoutes.elapsed r)
                (OpenRoutes.fault r) c w)
      as [[Hsame _]|(d & _ & _ & _ & Hst & _)]; [exact Hsame | contradiction].
  - by rewrite mongo_list_reads.
  - destruct (mongo_update_cases (OpenRoutes.fault r) c w)
      as [[Hsame _]|(pre & d & post & body & _ & _ & _ & Hst & _)];
      [exact Hsame | contradiction].
  - destruct (mongo_delete_cases (OpenRoutes.fault r) c w)
      as [[Hsame _]|(pre & d & post & _ & _ & Hst & _)];
      [exact Hsame | contradiction].
  - by rewrite mongo_search_reads.
Qed.

Lemma mongo_failed_request_keeps_collection_witness :
  Mongo.collection
    (snd (OpenRoutes.serveMongo Sample.oid_at
            (OpenRoutes.mkRequest Main.DELETE ["recipes"; Sample.pastaHex] ""
                                  (inr "EOF") 1%N (Some "connection reset") None None)
            Sample.pantry))
  = [Sample.mpasta; Sample.mcake].
Proof.
  apply (mongo_failed_request_keeps_collection Sample.oid_at
           (OpenRoutes.mkRequest Main.DELETE ["recipes"; Sample.pastaHex] ""
                                 (inr "EOF") 1%N (Some "connection reset") None None)
           Sample.pantry).
  intros resp Hresp. injection Hresp as <-. cbn. split; discriminate.
Defined.




(** X16.  Served by the MongoDB router, a GET request leaves the
    collection, the identifier counter and the clock as they were; it makes
    exactly one driver call, a find. *)
Theorem mongo_get_is_read_only :
  forall (oid_at : nat -> Mongo.ObjectID)
         (r : OpenRoutes.Request Mongo.Recipe) (w : Mongo.World)
         (resp : Response Mongo.Recipe),
    OpenRoutes.method r = Main.GET ->
    fst (OpenRoutes.serveMongo oid_at r w) = Some resp ->
    let w' := snd (OpenRoutes.serveMongo oid_at r w) in
    Mongo.collection w' = Mongo.collection w
    /\ Mongo.oidCounter w' = Mongo.oidCounter w
    /\ Mongo.clock w' = Mongo.clock w
    /\ exists f, Mongo.calls w' = Mongo.calls w ++ [Mongo.CallFind f].
Proof.
  intros oid_at r w resp Hget. unfold OpenRoutes.serveMongo. rewrite Hget.
  destruct (OpenRoutes.endpoint Main.GET (OpenRoutes.path r))
    as [[e id]|] eqn:Hroute; [|discriminate].
  rewrite snd_served. intros _.
  destruct (endpoint_GET _ _ _ Hroute) as [->| ->].
  - rewrite mongo_list_reads. repeat split. by eexists.
  - rewrite mongo_search_reads. repeat split. by eexists.
Qed.

Lemma mongo_get_is_read_only_witness :
  Mongo.collection
    (snd (OpenRoutes.serveMongo Sample.oid_at
            (OpenRoutes.mkRequest Main.GET ["recipes"] "" (inr "EOF") 1%N None None None)
            Sample.pantry))
  = [Sample.mpasta; Sample.mcake].
Proof.
  destruct (mongo_get_is_read_only Sample.oid_at
              (OpenRoutes.mkRequest Main.GET ["recipes"] "" (inr "EOF") 1%N None None None)
              Sample.pantry
              (JSON 200 (Recipes [Sample.mpasta; Sample.mcake])))
    as [Hcoll _]; [reflexivity | reflexivity | exact Hcoll].
Defined.

(** Every driver operation records itself, once. *)
Lemma InsertOne_calls (fault : option string) (doc : Mongo.Recipe) (w : Mongo.World) :
  Mongo.calls (snd (Mongo.InsertOne fault doc w))
    = Mongo.calls w ++ [Mongo.CallInsertOne doc].
Proof.
  unfold Mongo.InsertOne. destruct fault; [reflexivity|].
  by destruct (Mongo.firstMatch _ _ _).
Qed.

Lemma UpdateOne_calls (fault : option string) (f : Mongo.Filter)
    (upd : Mongo.Recipe) (w : Mongo.World) :
  Mongo.calls (snd (Mongo.UpdateOne fault f upd w))
    = Mongo.calls w ++ [Mongo.CallUpdateOne f].
Proof.
  unfold Mongo.UpdateOne. destruct fault; [reflexivity|].
  by destruct (Mongo.firstMatch _ _ _).
Qed.

Lemma DeleteOne_calls (fault : option string) (f : Mongo.Filter) (w : Mongo.World) :
  Mongo.calls (snd (Mongo.DeleteOne fault f w))
    = Mongo.calls w ++ [Mongo.CallDeleteOne f].
Proof.
  unfold Mongo.DeleteOne. destruct fault; [reflexivity|].
  by destruct (Mongo.firstMatch _ _ _).
Qed.

(** X17.  Served by the MongoDB router, a request makes at most one driver
    call, and the record of earlier calls is kept. *)
Theorem mongo_at_most_one_driver_call :
  forall (oid_at : nat -> Mongo.ObjectID)
         (r : OpenRoutes.Request Mongo.Recipe) (w : Mongo.World),
  exists ks,
    Mongo.calls (snd (OpenRoutes.serveMongo oid_at r w)) = Mongo.calls w ++ ks
    /\ (length ks <= 1)%nat.
Proof.
  intros oid_at r w. unfold OpenRoutes.serveMongo.
  assert (Hnone : exists ks, Mongo.calls w = Mongo.calls w ++ ks
                             /\ (length ks <= 1)%nat).
  { exists []. rewrite app_nil_r. split; [reflexivity | cbn; lia]. }
  destruct (OpenRoutes.endpoint (OpenRoutes.method r) (OpenRoutes.path r))
    as [[e id]|]; [|exact Hnone].
  rewrite snd_served. destruct e.
  - unfold Mongo.NewRecipeHandler. cbn [ShouldBindJSON].
    destruct (OpenRoutes.body r) as [body|err]; [|exact Hnone].
    cbn [Mongo.NewObjectID Mongo.time_Now].
    match goal with |- context [Mongo.InsertOne ?f ?d ?w0] =>
      pose proof (InsertOne_calls f d w0) as Hc;
      destruct (Mongo.InsertOne f d w0) as [[u|e] w3] end;
      cbn [snd Mongo.calls] in *; rewrite Hc; eexists [_]; split; reflexivity.
  - rewrite mongo_list_reads. eexists [_]. split; reflexivity.
  - unfold Mongo.UpdateRecipeHandler. cbn [ShouldBindJSON Param_id].
    destruct (Mongo.ObjectIDFromHex id) as [objID|err]; [|exact Hnone].
    destruct (OpenRoutes.body r) as [body|err]; [|exact Hnone].
    pose proof (UpdateOne_calls (OpenRoutes.fault r) (Mongo.FilterID objID) body w)
      as Hc.
    destruct (Mongo.UpdateOne _ _ _ _) as [[n|e] w3];
      cbn [snd] in *; rewrite Hc; eexists [_]; split; reflexivity.
  - unfold Mongo.DeleteRecipeHandler. cbn [Param_id].
    destruct (Mongo.ObjectIDFromHex id) as [objID|err]; [|exact Hnone].
    pose proof (DeleteOne_calls (OpenRoutes.fault r) (Mongo.FilterID objID) w)
      as Hc.
    destruct (Mongo.DeleteOne _ _ _) as [[n|e] w3]; cbn [snd] in *;
      [destruct (Z.eqb n 0)|]; cbn [snd]; rewrite Hc; eexists [_];
      split; reflexivity.
  - rewrite mongo_search_reads. eexists [_]. split; reflexivity.
Qed.

(** * Further properties of the session-protected router *)

(** X19.  The sign-in and sign-out routes of main.go are outside the gated
    group: whether or not the request carries a session, the chain passes
    the session middleware only, and the handler is run on the request
    with the store untouched before it. *)
Theorem public_routes_bypass_gate :
  forall (Store : Type) (recipesHandler : Main.RecipesHandler Store)
         (authHandler : Main.AuthHandler Store)
         (r : Main.Request) (live : list string) (s : Store),
    let attached := if Main.validSession live r then Main.cookie r else None in
    (Main.endpoint r = Some Main.SignIn ->
     Main.serve Store recipesHandler authHandler r live s
       = Main.SignInHandler Store authHandler
           (Main.mkContext Store r live attached None false s
                           ["Sessions"; "SignInHandler"]))
    /\
    (Main.endpoint r = Some Main.SignOut ->
     Main.serve Store recipesHandler authHandler r live s
       = Main.SignOutHandler Store authHandler
           (Main.mkContext Store r live attached None false s
                           ["Sessions"; "SignOutHandler"])).
Proof.
  intros Store rh ah r live s attached. subst attached.
  assert (Hsessions :
    Main.Sessions Store
      (Main.enter Store "Sessions"
         (Main.mkContext Store r live None None false s []))
    = Main.mkContext Store r live
        (if Main.validSession live r then Main.cookie r else None)
        None false s ["Sessions"]).
  { unfold Main.validSession, Main.Sessions, Main.enter, Main.setSession.
    cbn. destruct (Main.cookie r) as [tok|]; [|reflexivity].
    by destruct (existsb (String.eqb tok) live). }
  split; intros Hroute; unfold Main.serve; rewrite Hroute;
    unfold Main.chain, Main.public, Main.routerMiddleware;
    cbn [app Main.runChain]; rewrite Hsessions;
    cbn [Main.aborted Main.enter Main.request Main.liveSessions Main.session
         Main.written Main.store Main.entered app];
    match goal with |- (if ?b then _ else _) = _ => by destruct b end.
Qed.

Lemma public_routes_bypass_gate_witness :
  let signIn : Main.HandlerFunc nat := fun c =>
    Main.mkContext nat (Main.request nat c) ("fresh" :: Main.liveSessions nat c)
                   (Some "fresh") (Some 200) false (Main.store nat c)
                   (Main.entered nat c) in
  let c := Main.serve nat
             (Main.mkRecipesHandler nat signIn signIn signIn signIn signIn)
             (Main.mkAuthHandler nat signIn signIn)
             (Main.mkRequest Main.POST ["signin"] None) [] 42%nat in
  Main.written nat c = Some 200
  /\ Main.liveSessions nat c = ["fresh"]
  /\ Main.entered nat c = ["Sessions"; "SignInHandler"].
Proof.
  intros signIn c. subst c.
  destruct (public_routes_bypass_gate nat
              (Main.mkRecipesHandler nat signIn signIn signIn signIn signIn)
              (Main.mkAuthHandler nat signIn signIn)
              (Main.mkRequest Main.POST ["signin"] None) [] 42%nat)
    as [Hin _].
  rewrite Hin by reflexivity. repeat split; reflexivity.
Defined.

(** * Deleting twice in the MongoDB variant *)

(** X10.  In the MongoDB variant, with pairwise distinct identifiers in the
    collection and driver calls going through, deleting an identifier the
    collection holds is answered 200, and deleting it again is answered 404
    and leaves the collection as the first delete left it. *)
Theorem mongo_delete_twice :
  forall (c : Context Mongo.Recipe) (w : Mongo.World) (objID : Mongo.ObjectID),
    Mongo.ObjectIDFromHex (Param_id c) = inl objID ->
    NoDup (Mongo.ID <$> Mongo.collection w) ->
    Exists (fun d => Mongo.ID d = objID) (Mongo.collection w) ->
    let first := Mongo.DeleteRecipeHandler None c w in
    let second := Mongo.DeleteRecipeHandler None c (snd first) in
    status (fst first) = Http.StatusOK
    /\ status (fst second) = Http.StatusNotFound
    /\ Mongo.collection (snd second) = Mongo.collection (snd first)
    /\ Forall (fun d => Mongo.ID d <> objID) (Mongo.collection (snd second)).
Proof.
  intros c w objID Hhex Hnodup Hex first second. subst first second.
  destruct (first_document_with_id _ _ Hex)
    as (pre & d & post & Hsplit & Hid & Hpre).
  rewrite (mongo_delete_run c w objID pre post d Hhex Hsplit Hid Hpre).
  cbn [fst snd status]. split; [reflexivity|].
  assert (Hpost : Forall (fun d' => Mongo.ID d' <> objID) post).
  { rewrite Hsplit, fmap_app, fmap_cons in Hnodup.
    apply NoDup_app in Hnodup as (_ & _ & Hrest).
    apply NoDup_cons in Hrest as [Hnotin _].
    apply Forall_forall. intros d' Hd' Heq. apply Hnotin.
    apply list_elem_of_fmap. exists d'. split; [congruence | assumption]. }
  assert (Hall : Forall (fun d' => Mongo.ID d' <> objID) (pre ++ post))
    by (apply Forall_app; by split).
  rewrite mongo_delete_absent_run with (objID := objID);
    [|exact Hhex|exact Hall].
  cbn [fst snd status Mongo.collection Mongo.logCall]. by repeat split.
Qed.

Lemma mongo_delete_twice_witness :
  let c := mkContext Sample.pastaHex "" (inr "EOF") in
  let first := Mongo.DeleteRecipeHandler None c Sample.pantry in
  status (fst first) = 200
  /\ status (fst (Mongo.DeleteRecipeHandler None c (snd first))) = 404.
Proof.
  intros c first.
  destruct (mongo_delete_twice c Sample.pantry 7%N) as (Hone & Htwo & _).
  - reflexivity.
  - cbn. repeat (constructor; [intros Hin;
      repeat (apply elem_of_cons in Hin as [Hin|Hin]; [discriminate|]);
      by apply elem_of_nil in Hin|]). constructor.
  - apply Exists_cons_hd. reflexivity.
  - split; [exact Hone | exact Htwo].
Defined.
